(** * URL shortener with click analytics: a shallow embedding of [app/main.py]

    The service stores two tables, [url_mappings] and [clicks], in a SQLite
    database reached through a SQLAlchemy session, and exposes three
    handlers: [create_short_url], [redirect_short_code] and [get_stats].

    The embedding keeps the handlers in the shape they have in the source:
    a small state-and-exception monad [M] threads the database, the
    per-request session, the random generator and the clock, and Python's
    [raise] / [try ... except] are [raise] and [try_except]. *)

From Stdlib Require Import List String Ascii ZArith Arith Lia Bool.
Import ListNotations.
Local Open Scope string_scope.
Local Open Scope Z_scope.

(** ** Database models *)

(** A [DateTime] column value; only equality of timestamps matters here. *)
Definition datetime := Z.

Module UrlMapping.
(** Rows of [url_mappings]. *)
Record t := mk {
  id : Z;
  original_url : string;
  short_code : string;
  created_at : datetime
}.
End UrlMapping.

Module Click.
(** Rows of [clicks]. *)
Record t := mk {
  id : Z;
  url_id : Z;
  clicked_at : datetime;
  ip_address : string;
  user_agent : string
}.
End Click.

(** The persisted state: both tables, in insertion (rowid) order. *)
Record Store := mkStore {
  url_mappings : list UrlMapping.t;
  clicks : list Click.t
}.

Definition empty_store : Store := mkStore [] [].

(** ** Pydantic models *)

Module ShortenRequest.
(** [original_url] is the validated [HttpUrl]; the field holds [str] of it,
    which is the only way the handler ever reads it. *)
Record t := mk { original_url : string }.
End ShortenRequest.

Module ShortenResponse.
Record t := mk { short_code : string; original_url : string }.
End ShortenResponse.

Module StatsResponse.
Record t := mk {
  short_code : string;
  original_url : string;
  total_clicks : Z;
  created_at : datetime
}.
End StatsResponse.

Module RedirectResponse.
(** The arguments the handler passes to [RedirectResponse]. *)
Record t := mk { url : string; status_code : Z }.
End RedirectResponse.

Module Request.
Record Address := mkAddress { host : string; port : Z }.
(** [client] is [None] when the server gave no peer address; [headers]
    are the request's headers in order, names already lower-cased as the
    ASGI server delivers them. *)
Record t := mk {
  client : option Address;
  headers : list (string * string)
}.

(** [request.headers.get(key, default)]: the first header named [key]. *)
Fixpoint headers_get (hs : list (string * string)) (key default : string)
  : string :=
  match hs with
  | [] => default
  | (k, v) :: rest =>
      if String.eqb k key then v else headers_get rest key default
  end.
End Request.

(** ** The world a handler runs in *)

(** [random]'s generator: the sequence of raw draws it will deliver, and how
    many have been consumed. *)
Record Rng := mkRng { rand_tape : nat -> nat; rand_pos : nat }.

(** The clock: the values successive [datetime.utcnow()] calls return. *)
Record Clock := mkClock { clock_tape : nat -> datetime; clock_pos : nat }.

(** Objects added to the session and not yet flushed ([db.new]). *)
Inductive Pending :=
| NewUrlMapping (original_url short_code : string)
| NewClick (url_id : Z) (ip_address user_agent : string).

Record World := mkWorld {
  store : Store;
  session_new : list Pending;
  rng : Rng;
  clock : Clock
}.

(** ** Exceptions and the handler monad *)

Inductive exn :=
| IntegrityError
| HTTPException (status_code : Z) (detail : string)
| IndexError
| InvalidRequestError.

Inductive result (A : Type) :=
| Return (a : A)
| Raise (e : exn).
Arguments Return {A} a.
Arguments Raise {A} e.

Definition M (A : Type) : Type := World -> result A * World.

Definition ret {A} (a : A) : M A := fun w => (Return a, w).

Definition raise {A} (e : exn) : M A := fun w => (Raise e, w).

Definition bind {A B} (m : M A) (k : A -> M B) : M B :=
  fun w =>
    match m w with
    | (Return a, w') => k a w'
    | (Raise e, w') => (Raise e, w')
    end.

(** [try: body except: handler]; the handler re-raises what it does not
    catch. State changes made by [body] before the exception stay. *)
Definition try_except {A} (body : M A) (handler : exn -> M A) : M A :=
  fun w =>
    match body w with
    | (Return a, w') => (Return a, w')
    | (Raise e, w') => handler e w'
    end.

Declare Scope py_scope.
Delimit Scope py_scope with py.
Notation "x <- m ;; k" := (bind m (fun x => k))
  (at level 61, m at next level, right associativity) : py_scope.
Notation "m ;; k" := (bind m (fun _ => k))
  (at level 61, right associativity) : py_scope.
Local Open Scope py_scope.

(** ** Constants *)

Definition digits : string := "0123456789".
Definition ascii_lowercase : string := "abcdefghijklmnopqrstuvwxyz".
Definition ascii_uppercase : string := "ABCDEFGHIJKLMNOPQRSTUVWXYZ".
Definition ascii_letters : string := ascii_lowercase ++ ascii_uppercase.

Definition BASE62_CHARS : string := digits ++ ascii_letters.

(** ** Helper functions *)

(** [random._randbelow(n)]: one draw, reduced into [0, n). *)
Definition randbelow (n : nat) : M nat :=
  fun w =>
    let g := rng w in
    (Return (Nat.modulo (rand_tape g (rand_pos g)) n),
     mkWorld (store w) (session_new w)
             (mkRng (rand_tape g) (S (rand_pos g))) (clock w)).

(** [random.choice(seq)]: [seq[_randbelow(len(seq))]], an [IndexError] on
    the empty sequence. *)
Definition choice (seq : string) : M ascii :=
  match String.length seq with
  | O => raise IndexError
  | n =>
      i <- randbelow n ;;
      match String.get i seq with
      | Some c => ret c
      | None => raise IndexError
      end
  end.

(** The generator expression [random.choice(BASE62_CHARS) for _ in
    range(length)] joined into a string; [count] is the length of
    [range(length)]. *)
Fixpoint join_choices (count : nat) : M string :=
  match count with
  | O => ret EmptyString
  | S count' =>
      c <- choice BASE62_CHARS ;;
      rest <- join_choices count' ;;
      ret (String c rest)
  end.

(** [range(length)] is empty for a negative [length]. *)
Definition generate_short_code (length : Z) : M string :=
  join_choices (Z.to_nat length).

Definition default_length : Z := 7.

(** ** The session and the storage engine *)

Definition tick (ck : Clock) : Clock :=
  mkClock (clock_tape ck) (S (clock_pos ck)).

Definition now_of (ck : Clock) : datetime := clock_tape ck (clock_pos ck).

(** SQLite's rowid for an [INTEGER PRIMARY KEY] column left unset: one more
    than the largest in the table, 1 in an empty table. *)
Definition next_rowid (ids : list Z) : Z := 1 + fold_right Z.max 0 ids.

(** Whether some row of [url_mappings] already carries [code]; this is the
    check behind the [unique=True] index on [short_code] (SQLite compares
    strings byte by byte). *)
Definition code_taken (code : string) (st : Store) : bool :=
  existsb (fun m => String.eqb (UrlMapping.short_code m) code)
          (url_mappings st).

(** One [INSERT]. The column defaults ([id], [created_at] / [clicked_at])
    are filled in here; [None] is the unique-constraint failure. The
    declared widths [String(10)], [String(50)], [String(255)] are not
    enforced by SQLite and the handlers never cut a string, so values are
    stored as given. Foreign keys are not enforced either. *)
Definition insert (p : Pending) (now : datetime) (st : Store)
  : option (Store * Z) :=
  match p with
  | NewUrlMapping original_url short_code =>
      if code_taken short_code st then None
      else
        let pk := next_rowid (map UrlMapping.id (url_mappings st)) in
        Some (mkStore
                (url_mappings st
                 ++ [UrlMapping.mk pk original_url short_code now])
                (clicks st),
              pk)
  | NewClick url_id ip_address user_agent =>
      let pk := next_rowid (map Click.id (clicks st)) in
      Some (mkStore
              (url_mappings st)
              (clicks st ++ [Click.mk pk url_id now ip_address user_agent]),
            pk)
  end.

(** Flushing the pending objects in the order they were added, each
    reading the clock for its timestamp default. *)
Fixpoint flush (ps : list Pending) (st : Store) (ck : Clock)
  : option (Store * list Z) * Clock :=
  match ps with
  | [] => (Some (st, []), ck)
  | p :: ps' =>
      match insert p (now_of ck) st with
      | None => (None, tick ck)
      | Some (st', pk) =>
          match flush ps' st' (tick ck) with
          | (Some (st'', pks), ck') => (Some (st'', pk :: pks), ck')
          | (None, ck') => (None, ck')
          end
      end
  end.

(** [db.add(obj)] *)
Definition db_add (p : Pending) : M unit :=
  fun w =>
    (Return tt,
     mkWorld (store w) (session_new w ++ [p]) (rng w) (clock w)).

(** [db.commit()]: flush, then commit the transaction. When an insert
    fails the transaction is undone as a whole, so the store is the one the
    transaction started from, and [IntegrityError] is raised with the
    objects still in the session. On success the primary keys the flush
    wrote onto the new objects are handed back (the source reads them off
    the objects). *)
Definition db_commit : M (list Z) :=
  fun w =>
    match flush (session_new w) (store w) (clock w) with
    | (Some (st', pks), ck') =>
        (Return pks, mkWorld st' [] (rng w) ck')
    | (None, ck') =>
        (Raise IntegrityError,
         mkWorld (store w) (session_new w) (rng w) ck')
    end.

(** [db.rollback()]: the objects added in the failed transaction are
    expunged. *)
Definition db_rollback : M unit :=
  fun w => (Return tt, mkWorld (store w) [] (rng w) (clock w)).

(** The key of the one object a handler added before the commit. *)
Definition identity_key (pks : list Z) : M Z :=
  match pks with
  | [pk] => ret pk
  | _ => raise InvalidRequestError
  end.

(** [db.refresh(url)]: reload the row with the object's primary key. *)
Definition db_refresh (pk : Z) : M UrlMapping.t :=
  fun w =>
    match find (fun m => Z.eqb (UrlMapping.id m) pk)
               (url_mappings (store w)) with
    | Some m => (Return m, w)
    | None => (Raise InvalidRequestError, w)
    end.

(** [db.query(UrlMapping).filter(UrlMapping.short_code == short_code)
    .first()] *)
Definition query_first_by_short_code (short_code : string)
  : M (option UrlMapping.t) :=
  fun w =>
    (Return (find (fun m => String.eqb (UrlMapping.short_code m) short_code)
                  (url_mappings (store w))),
     w).

(** [db.query(Click).filter(Click.url_id == url_id).count()] *)
Definition count_clicks (url_id : Z) (st : Store) : Z :=
  Z.of_nat
    (List.length (filter (fun c => Z.eqb (Click.url_id c) url_id) (clicks st))).

Definition query_count_by_url_id (url_id : Z) : M Z :=
  fun w => (Return (count_clicks url_id (store w)), w).

(** [get_db]: a session of its own for each request, closed in the
    [finally] whatever the handler did. *)
Definition get_db {A} (handler : M A) : M A :=
  fun w =>
    match handler (mkWorld (store w) [] (rng w) (clock w)) with
    | (r, w') => (r, mkWorld (store w') [] (rng w') (clock w'))
    end.

(** ** API endpoints *)

Definition range (n : nat) : list nat := seq 0 n.

(** The body of [for attempt in range(5)], over the attempts still to
    run; falling out of the loop reaches the final [raise]. *)
Fixpoint create_short_url_loop (attempts : list nat) (original_url : string)
  : M ShortenResponse.t :=
  match attempts with
  | [] => raise (HTTPException 500 "Failed to generate unique short code")
  | _ :: rest =>
      code <- generate_short_code default_length ;;
      db_add (NewUrlMapping original_url code) ;;
      try_except
        (pks <- db_commit ;;
         pk <- identity_key pks ;;
         url <- db_refresh pk ;;
         ret (ShortenResponse.mk (UrlMapping.short_code url)
                                 (UrlMapping.original_url url)))
        (fun e =>
           match e with
           | IntegrityError =>
               db_rollback ;;
               create_short_url_loop rest original_url
           | _ => raise e
           end)
  end.

Definition create_short_url (payload : ShortenRequest.t)
  : M ShortenResponse.t :=
  let original_url := ShortenRequest.original_url payload in
  create_short_url_loop (range 5) original_url.

(** Reading [url.original_url] after the commit makes the session load the
    row again by its primary key; no operation changes or deletes a row, so
    what it loads is the row the lookup found. *)
Definition redirect_short_code (short_code : string) (request : Request.t)
  : M RedirectResponse.t :=
  url <- query_first_by_short_code short_code ;;
  match url with
  | None => raise (HTTPException 404 "Short code not found")
  | Some url =>
      let client_host :=
        match Request.client request with
        | Some a => Request.host a
        | None => "unknown"
        end in
      let user_agent :=
        Request.headers_get (Request.headers request) "user-agent" "unknown" in
      db_add (NewClick (UrlMapping.id url) client_host user_agent) ;;
      db_commit ;;
      ret (RedirectResponse.mk (UrlMapping.original_url url) 302)
  end.

Definition get_stats (short_code : string) : M StatsResponse.t :=
  url <- query_first_by_short_code short_code ;;
  match url with
  | None => raise (HTTPException 404 "Short code not found")
  | Some url =>
      total_clicks <- query_count_by_url_id (UrlMapping.id url) ;;
      ret (StatsResponse.mk (UrlMapping.short_code url)
                            (UrlMapping.original_url url)
                            total_clicks
                            (UrlMapping.created_at url))
  end.

(** The status line FastAPI answers with: the handler's own status on a
    normal return, the [HTTPException]'s status when one is raised, and 500
    for any other exception. *)
Definition http_status {A} (success : A -> Z) (r : result A) : Z :=
  match r with
  | Return a => success a
  | Raise (HTTPException status_code _) => status_code
  | Raise _ => 500
  end.

(** ** The redirect response on the wire *)

(** The characters [urllib.parse.quote] never escapes. *)
Definition ALWAYS_SAFE : string :=
  "ABCDEFGHIJKLMNOPQRSTUVWXYZabcdefghijklmnopqrstuvwxyz0123456789_.-~".

(** The [safe] argument Starlette's [RedirectResponse] gives to [quote]. *)
Definition REDIRECT_SAFE : string := ":/%#?=@[]!$&'()*+,;".

Definition char_in (c : ascii) (s : string) : bool :=
  existsb (Ascii.eqb c) (list_ascii_of_string s).

Definition hex_digit (n : nat) : ascii :=
  match String.get n "0123456789ABCDEF" with
  | Some c => c
  | None => "0"%char
  end.

(** [%XX], upper-case hexadecimal, for one byte. *)
Definition percent_encode (c : ascii) : string :=
  String "%"%char
         (String (hex_digit (Nat.div (nat_of_ascii c) 16))
                 (String (hex_digit (Nat.modulo (nat_of_ascii c) 16))
                         EmptyString)).

(** [urllib.parse.quote(s, safe=safe)] on the bytes of [s]: a byte that is
    always safe or in [safe] stays, any other becomes [%XX]. *)
Fixpoint quote (s safe : string) : string :=
  match s with
  | EmptyString => EmptyString
  | String c rest =>
      (if char_in c ALWAYS_SAFE || char_in c safe
       then String c EmptyString
       else percent_encode c)
      ++ quote rest safe
  end.

(** The [Location] header of the response: [RedirectResponse] sets it to
    [quote(str(url), safe=":/%#?=@[]!$&'()*+,;")]. *)
Definition location_header (r : RedirectResponse.t) : string :=
  quote (RedirectResponse.url r) REDIRECT_SAFE.

(** The bytes a [Location] header carries as they are. *)
Definition location_safe (c : ascii) : bool :=
  char_in c ALWAYS_SAFE || char_in c REDIRECT_SAFE.

(** ** Vocabulary of the specification *)

(** Membership in the alphabet as the specification words it: a digit, a
    lower-case or an upper-case ASCII letter. *)
Definition alphanumeric (c : ascii) : bool :=
  let n := nat_of_ascii c in
  ((48 <=? n) && (n <=? 57)
   || (97 <=? n) && (n <=? 122)
   || (65 <=? n) && (n <=? 90))%nat.

(** The character [random.choice(BASE62_CHARS)] yields on raw draw [r]. *)
Definition drawn_char (r : nat) : ascii :=
  match String.get (Nat.modulo r 62) BASE62_CHARS with
  | Some c => c
  | None => "0"%char
  end.

(** The string made of the [n] draws of [tape] from [pos] on. *)
Fixpoint code_at (tape : nat -> nat) (pos n : nat) : string :=
  match n with
  | O => EmptyString
  | S n' => String (drawn_char (tape pos)) (code_at tape (S pos) n')
  end.

(** The generator after [n] more draws. *)
Definition drawn (n : nat) (w : World) : World :=
  mkWorld (store w) (session_new w)
          (mkRng (rand_tape (rng w)) (rand_pos (rng w) + n)) (clock w).

(** The world a conflicting attempt leaves behind: 7 draws and one clock
    reading consumed, the store and the session as they were. *)
Definition after_attempt (w : World) : World :=
  mkWorld (store w) []
          (mkRng (rand_tape (rng w)) (rand_pos (rng w) + 7)) (tick (clock w)).

(** The candidate code the [k]-th attempt (from 0) of a [create_short_url]
    started in [w] generates: attempts consume 7 draws each. *)
Definition candidate (w : World) (k : nat) : string :=
  code_at (rand_tape (rng w)) (rand_pos (rng w) + 7 * k) 7.

(** The row a successful insert of [(original_url, short_code)] appends. *)
Definition new_mapping (st : Store) (original_url short_code : string)
           (now : datetime) : UrlMapping.t :=
  UrlMapping.mk (next_rowid (map UrlMapping.id (url_mappings st)))
                original_url short_code now.

(** The row a click insert appends. *)
Definition new_click (st : Store) (url_id : Z) (ip_address user_agent : string)
           (now : datetime) : Click.t :=
  Click.mk (next_rowid (map Click.id (clicks st)))
           url_id now ip_address user_agent.

(** One committed transaction of some session: the only way the tables
    change. Requests running side by side interleave such transactions. *)
Inductive transaction : Store -> Store -> Prop :=
| tx_mapping (st st' : Store) (original_url short_code : string)
             (now : datetime) (pk : Z) :
    insert (NewUrlMapping original_url short_code) now st = Some (st', pk) ->
    transaction st st'
| tx_click (st st' : Store) (url_id : Z) (ip_address user_agent : string)
           (now : datetime) (pk : Z) :
    insert (NewClick url_id ip_address user_agent) now st = Some (st', pk) ->
    transaction st st'.

(** The stores the service can be in: the empty tables [create_all] makes,
    and whatever committed transactions lead to from there. *)
Inductive reachable : Store -> Prop :=
| reachable_empty : reachable empty_store
| reachable_tx (st st' : Store) :
    reachable st -> transaction st st' -> reachable st'.

(** No two rows of [url_mappings] share a [short_code]. *)
Definition unique_short_codes (st : Store) : Prop :=
  NoDup (map UrlMapping.short_code (url_mappings st)).

(** No two rows of [url_mappings] share a primary key. *)
Definition unique_ids (st : Store) : Prop :=
  NoDup (map UrlMapping.id (url_mappings st)).

(** A request as a client sends it, and what running it does. *)
Inductive Call :=
| Shorten (payload : ShortenRequest.t)
| Resolve (short_code : string) (request : Request.t)
| Stats (short_code : string).

(** The world after FastAPI has served [c]. *)
Definition serve (c : Call) (w : World) : World :=
  match c with
  | Shorten payload => snd (get_db (create_short_url payload) w)
  | Resolve short_code request =>
      snd (get_db (redirect_short_code short_code request) w)
  | Stats short_code => snd (get_db (get_stats short_code) w)
  end.

(** What a read of [short_code] reports as its [original_url]. *)
Definition observed_url (c : Call) (w : World) : option string :=
  match c with
  | Shorten _ => None
  | Resolve short_code request =>
      match fst (get_db (redirect_short_code short_code request) w) with
      | Return r => Some (RedirectResponse.url r)
      | Raise _ => None
      end
  | Stats short_code =>
      match fst (get_db (get_stats short_code) w) with
      | Return r => Some (StatsResponse.original_url r)
      | Raise _ => None
      end
  end.

(** [total_clicks] as [get_stats] reports it, when it answers. *)
Definition reported_clicks (short_code : string) (w : World) : option Z :=
  match fst (get_db (get_stats short_code) w) with
  | Return r => Some (StatsResponse.total_clicks r)
  | Raise _ => None
  end.

(** The mapping a lookup of [short_code] finds: the first row carrying it. *)
Definition first_by_short_code (short_code : string) (st : Store)
  : option UrlMapping.t :=
  find (fun m => String.eqb (UrlMapping.short_code m) short_code)
       (url_mappings st).

(** The world as a handler first sees it: the session [get_db] opened holds
    no objects. *)
Definition fresh_session (w : World) : World :=
  mkWorld (store w) [] (rng w) (clock w).

(** The world after serving [calls] one after the other. *)
Definition serve_all (calls : list Call) (w : World) : World :=
  fold_left (fun w c => serve c w) calls w.

(** What each of [calls], served in turn from [w], reports as the
    [original_url]. *)
Fixpoint observations (calls : list Call) (w : World) : list (option string) :=
  match calls with
  | [] => []
  | c :: cs => observed_url c w :: observations cs (serve c w)
  end.

(** A read of [code]: a redirect through it or a look at its statistics. *)
Definition reads (code : string) (c : Call) : Prop :=
  match c with
  | Shorten _ => False
  | Resolve short_code _ => short_code = code
  | Stats short_code => short_code = code
  end.

(** How many of [calls] are redirects. *)
Definition resolves (calls : list Call) : nat :=
  List.length
    (filter (fun c => match c with Resolve _ _ => true | _ => false end) calls).

(** What the handler stores as the click's origin address and client
    identifier. *)
Definition client_host_of (request : Request.t) : string :=
  match Request.client request with
  | Some a => Request.host a
  | None => "unknown"
  end.

Definition user_agent_of (request : Request.t) : string :=
  Request.headers_get (Request.headers request) "user-agent" "unknown".

(** Zero or more committed transactions, one after the other. *)
Inductive transactions : Store -> Store -> Prop :=
| txs_none (st : Store) : transactions st st
| txs_more (st st' st'' : Store) :
    transaction st st' -> transactions st' st'' -> transactions st st''.

(** ** The service as a whole *)

(** [root]: the welcome endpoint's dictionary, keys in order. It takes no
    session and touches nothing. *)
Definition root : list (string * string) :=
  [("service", "URL Shortener");
   ("docs", "http://127.0.0.1:8000/docs");
   ("version", "1.0.0")].

(** The worlds the service gets into: it starts on the empty tables
    [create_all] makes, with whatever generator and clock, and serves
    requests one after the other. *)
Inductive served : World -> Prop :=
| served_start (g : Rng) (ck : Clock) :
    served (mkWorld empty_store [] g ck)
| served_call (c : Call) (w : World) :
    served w -> served (serve c w).

(** Every click points at a row of [url_mappings]. *)
Definition clicks_reference_mappings (st : Store) : Prop :=
  forall c, In c (clicks st) ->
            exists m, In m (url_mappings st)
                      /\ UrlMapping.id m = Click.url_id c.

(** How many of [calls] are redirects through [code]. *)
Definition resolves_of (code : string) (calls : list Call) : nat :=
  List.length
    (filter (fun c => match c with
                      | Resolve short_code _ => String.eqb short_code code
                      | _ => false
                      end)
            calls).

(** The code a call hands out: the [short_code] of the answer of a
    [create_short_url] that succeeds. *)
Definition issued_code (c : Call) (w : World) : list string :=
  match c with
  | Shorten payload =>
      match fst (get_db (create_short_url payload) w) with
      | Return r => [ShortenResponse.short_code r]
      | Raise _ => []
      end
  | _ => []
  end.

(** The codes handed out while [calls] are served in turn from [w]. *)
Fixpoint issued_codes (calls : list Call) (w : World) : list string :=
  match calls with
  | [] => []
  | c :: cs => (issued_code c w ++ issued_codes cs (serve c w))%list
  end.

(** The [total_clicks] of all rows of [url_mappings], added up. *)
Definition sum_total_clicks (st : Store) : Z :=
  fold_right Z.add 0
             (map (fun m => count_clicks (UrlMapping.id m) st)
                  (url_mappings st)).

(** The status a client sees for a call. *)
Definition status_of_call (c : Call) (w : World) : Z :=
  match c with
  | Shorten payload =>
      http_status (fun _ => 200) (fst (get_db (create_short_url payload) w))
  | Resolve short_code request =>
      http_status RedirectResponse.status_code
                  (fst (get_db (redirect_short_code short_code request) w))
  | Stats short_code =>
      http_status (fun _ => 200) (fst (get_db (get_stats short_code) w))
  end.

(** ** Sample worlds *)

(** Empty tables, a generator whose draws count up from 0 and a clock that
    starts at 100. *)
Definition sample_world : World :=
  mkWorld empty_store []
          (mkRng (fun n => n) 0%nat)
          (mkClock (fun n => 100 + Z.of_nat n) 0%nat).

(** A stubbed generator: every draw is 10, so every candidate is
    ["aaaaaaa"]. *)
Definition stuck_world (st : Store) : World :=
  mkWorld st []
          (mkRng (fun _ => 10%nat) 0%nat)
          (mkClock (fun n => 100 + Z.of_nat n) 0%nat).

Definition sample_payload : ShortenRequest.t :=
  ShortenRequest.mk "https://example.com/a".

(** The store once ["aaaaaaa"] has been issued for the sample payload. *)
Definition issued_store : Store :=
  mkStore [UrlMapping.mk 1 "https://example.com/a" "aaaaaaa" 100] [].

Definition sample_request : Request.t :=
  Request.mk (Some (Request.mkAddress "203.0.113.7" 51234))
             [("host", "sho.rt"); ("user-agent", "curl/8.5.0")].

(** A request with neither a peer address nor a [User-Agent] header. *)
Definition bare_request : Request.t := Request.mk None [("host", "sho.rt")].

(** Two codes issued, ["0123456"] and ["789abcd"]: the sample world after
    two calls of [create_short_url]. *)
Definition two_codes_store : Store :=
  mkStore [UrlMapping.mk 1 "https://example.com/a" "0123456" 100;
           UrlMapping.mk 2 "https://example.com/b" "789abcd" 101]
          [].

Definition two_codes_world : World :=
  mkWorld two_codes_store []
          (mkRng (fun n => n) 14%nat)
          (mkClock (fun n => 100 + Z.of_nat n) 2%nat).

(** A [User-Agent] of 300 characters, longer than the declared width of
    the [user_agent] column. *)
Definition long_user_agent : string :=
  string_of_list_ascii (repeat "A"%char 300).

Definition long_request : Request.t :=
  Request.mk None [("user-agent", long_user_agent)].

(** A request with two [User-Agent] headers, the first of them empty. *)
Definition twice_agent_request : Request.t :=
  Request.mk None
             [("host", "sho.rt"); ("user-agent", ""); ("user-agent", "curl/8")].

(** The two-codes world after one redirect through ["0123456"]. *)
Definition clicked_world : World :=
  mkWorld (mkStore (url_mappings two_codes_store)
                   [Click.mk 1 1 102 "203.0.113.7" "curl/8.5.0"])
          []
          (mkRng (fun n => n) 14%nat)
          (mkClock (fun n => 100 + Z.of_nat n) 3%nat).

(** A URL with braces in its query, as a client may well submit it. *)
Definition braces_payload : ShortenRequest.t :=
  ShortenRequest.mk "https://example.com/?q={x}".

(** The sample world with ["0123456"] already issued: the first candidate
    of the next call collides, the second is free. *)
Definition one_code_world : World :=
  mkWorld (mkStore [UrlMapping.mk 1 "https://example.com/a" "0123456" 100] [])
          []
          (mkRng (fun n => n) 0%nat)
          (mkClock (fun n => 100 + Z.of_nat n) 1%nat).

(** * Proofs *)

(** ** The code generator *)

Lemma get_in_range (s : string) :
  forall i, (i < String.length s)%nat ->
            exists c, String.get i s = Some c /\ In c (list_ascii_of_string s).
Proof.
  induction s as [|a s IH]; intros i Hi; simpl in Hi.
  - lia.
  - destruct i as [|i]; simpl.
    + exists a. split; [reflexivity | now left].
    + destruct (IH i) as [c [Hc Hin]]; [lia|].
      exists c. split; [exact Hc | now right].
Qed.

Lemma BASE62_CHARS_length : String.length BASE62_CHARS = 62%nat.
Proof. reflexivity. Qed.

Lemma drawn_char_get (r : nat) :
  String.get (Nat.modulo r 62) BASE62_CHARS = Some (drawn_char r).
Proof.
  unfold drawn_char.
  destruct (get_in_range BASE62_CHARS (Nat.modulo r 62)) as [c [Hc _]].
  - rewrite BASE62_CHARS_length. apply Nat.mod_upper_bound. discriminate.
  - now rewrite Hc.
Qed.

Lemma drawn_char_in_alphabet (r : nat) :
  In (drawn_char r) (list_ascii_of_string BASE62_CHARS).
Proof.
  destruct (get_in_range BASE62_CHARS (Nat.modulo r 62)) as [c [Hc Hin]].
  - rewrite BASE62_CHARS_length. apply Nat.mod_upper_bound. discriminate.
  - rewrite drawn_char_get in Hc. now inversion Hc; subst.
Qed.

Lemma choice_run (w : World) :
  choice BASE62_CHARS w
  = (Return (drawn_char (rand_tape (rng w) (rand_pos (rng w)))),
     mkWorld (store w) (session_new w)
             (mkRng (rand_tape (rng w)) (S (rand_pos (rng w)))) (clock w)).
Proof.
  unfold choice. rewrite BASE62_CHARS_length.
  unfold bind, randbelow. cbv zeta.
  rewrite drawn_char_get. reflexivity.
Qed.

Lemma join_choices_run (n : nat) :
  forall w,
    join_choices n w
    = (Return (code_at (rand_tape (rng w)) (rand_pos (rng w)) n), drawn n w).
Proof.
  induction n as [|n IH]; intros w.
  - unfold drawn. simpl. unfold ret. rewrite Nat.add_0_r.
    destruct w as [st ps [tape pos] ck]. reflexivity.
  - cbn [join_choices code_at]. unfold bind at 1. rewrite choice_run.
    unfold bind at 1. rewrite IH. unfold ret, drawn. cbn.
    now rewrite Nat.add_succ_r.
Qed.

Lemma code_at_length (tape : nat -> nat) (n : nat) :
  forall pos, String.length (code_at tape pos n) = n.
Proof.
  induction n as [|n IH]; intros pos; simpl; [reflexivity | now rewrite IH].
Qed.

Lemma code_at_in_alphabet (tape : nat -> nat) (n : nat) :
  forall pos,
    Forall (fun c => In c (list_ascii_of_string BASE62_CHARS))
           (list_ascii_of_string (code_at tape pos n)).
Proof.
  induction n as [|n IH]; intros pos; simpl; constructor.
  - apply drawn_char_in_alphabet.
  - apply IH.
Qed.

Lemma alphabet_is_alphanumeric (c : ascii) :
  In c (list_ascii_of_string BASE62_CHARS) <-> alphanumeric c = true.
Proof.
  split.
  - intros Hin.
    assert (H : forallb alphanumeric (list_ascii_of_string BASE62_CHARS)
                = true)
      by (vm_compute; reflexivity).
    rewrite forallb_forall in H. now apply H.
  - destruct c as [[] [] [] [] [] [] [] []]; vm_compute; intros H;
      try discriminate H; clear H; tauto.
Qed.

(** ** The storage engine *)

Lemma next_rowid_above (ids : list Z) :
  forall x, In x ids -> x < next_rowid ids.
Proof.
  unfold next_rowid. induction ids as [|y ids IH]; intros x Hin.
  - destruct Hin.
  - cbn [fold_right]. destruct Hin as [-> | Hin]; [lia|].
    specialize (IH x Hin). lia.
Qed.

Lemma code_taken_iff (code : string) (st : Store) :
  code_taken code st = true
  <-> exists m, In m (url_mappings st) /\ UrlMapping.short_code m = code.
Proof.
  unfold code_taken. rewrite existsb_exists.
  split; intros [m [Hin H]]; exists m; split; trivial;
    now apply String.eqb_eq.
Qed.

Lemma code_free_iff (code : string) (st : Store) :
  code_taken code st = false
  <-> forall m, In m (url_mappings st) -> UrlMapping.short_code m <> code.
Proof.
  split.
  - intros H m Hin Heq.
    assert (code_taken code st = true) by (apply code_taken_iff; eauto).
    congruence.
  - intros H. destruct (code_taken code st) eqn:E; [|reflexivity].
    apply code_taken_iff in E. destruct E as [m [Hin Heq]].
    now destruct (H m Hin).
Qed.

Lemma find_app_fresh {A} (f : A -> bool) (l : list A) (x : A) :
  (forall y, In y l -> f y = false) -> f x = true ->
  find f (l ++ [x]) = Some x.
Proof.
  intros Hl Hx. induction l as [|y l IH]; simpl.
  - now rewrite Hx.
  - rewrite (Hl y) by now left. apply IH. intros z Hz. apply Hl. now right.
Qed.

Lemma find_app_old {A} (f : A -> bool) (l : list A) (x y : A) :
  find f l = Some y -> find f (l ++ [x]) = Some y.
Proof.
  induction l as [|z l IH]; simpl; [discriminate|].
  destruct (f z); [trivial | exact IH].
Qed.

Lemma find_new_mapping (st : Store) (original_url short_code : string)
      (now : datetime) :
  let m := new_mapping st original_url short_code now in
  find (fun r => Z.eqb (UrlMapping.id r) (UrlMapping.id m))
       (url_mappings st ++ [m]) = Some m.
Proof.
  intros m. apply find_app_fresh.
  - intros y Hy. apply Z.eqb_neq.
    assert (UrlMapping.id y < UrlMapping.id m); [|lia].
    unfold m, new_mapping. cbn [UrlMapping.id].
    apply next_rowid_above. now apply in_map.
  - apply Z.eqb_refl.
Qed.

Lemma find_by_code_in (code : string) (ms : list UrlMapping.t)
      (m : UrlMapping.t) :
  find (fun r => String.eqb (UrlMapping.short_code r) code) ms = Some m ->
  In m ms /\ UrlMapping.short_code m = code.
Proof.
  intros H. apply find_some in H. destruct H as [Hin H].
  split; [exact Hin | now apply String.eqb_eq].
Qed.

Lemma find_by_code_none (code : string) (st : Store) :
  find (fun r => String.eqb (UrlMapping.short_code r) code) (url_mappings st)
  = None
  <-> code_taken code st = false.
Proof.
  rewrite code_free_iff. split.
  - intros H m Hin Heq.
    apply (find_none _ _ H) in Hin. apply String.eqb_neq in Hin. contradiction.
  - intros H.
    destruct (find _ (url_mappings st)) as [m|] eqn:E; [|reflexivity].
    apply find_by_code_in in E. destruct E as [Hin Heq].
    now destruct (H m Hin).
Qed.

(** ** One attempt of the retry loop *)

Lemma generate_default_run (w : World) :
  generate_short_code default_length w = (Return (candidate w 0), drawn 7 w).
Proof.
  unfold generate_short_code, default_length, candidate.
  change (Z.to_nat 7) with 7%nat. rewrite join_choices_run.
  now rewrite Nat.mul_0_r, Nat.add_0_r.
Qed.

Lemma attempt_conflict (a : nat) (rest : list nat) (url : string) (w : World) :
  session_new w = [] ->
  code_taken (candidate w 0) (store w) = true ->
  create_short_url_loop (a :: rest) url w
  = create_short_url_loop rest url (after_attempt w).
Proof.
  intros Hnew Htaken. cbn [create_short_url_loop].
  unfold bind at 1. rewrite generate_default_run.
  unfold bind at 1, db_add at 1, try_except, bind at 1, db_commit at 1.
  cbn [drawn store session_new rng clock]. rewrite Hnew.
  cbn [app flush insert]. rewrite Htaken.
  unfold bind, db_rollback. reflexivity.
Qed.

Lemma attempt_success (a : nat) (rest : list nat) (url : string) (w : World) :
  session_new w = [] ->
  code_taken (candidate w 0) (store w) = false ->
  create_short_url_loop (a :: rest) url w
  = (Return (ShortenResponse.mk (candidate w 0) url),
     mkWorld
       (mkStore (url_mappings (store w)
                 ++ [new_mapping (store w) url (candidate w 0)
                                 (now_of (clock w))])
                (clicks (store w)))
       [] (rng (after_attempt w)) (clock (after_attempt w))).
Proof.
  intros Hnew Hfree. cbn [create_short_url_loop].
  unfold bind at 1. rewrite generate_default_run.
  unfold bind at 1, db_add at 1, try_except, bind at 1, db_commit at 1.
  cbn [drawn store session_new rng clock]. rewrite Hnew.
  cbn [app flush insert]. rewrite Hfree.
  unfold bind at 1, identity_key, ret at 1.
  unfold bind at 1, db_refresh. cbn [store url_mappings].
  pose proof (find_new_mapping (store w) url (candidate w 0) (now_of (clock w)))
    as Hfind.
  cbv zeta in Hfind. unfold new_mapping in Hfind at 1.
  cbn [UrlMapping.id] in Hfind. fold (new_mapping (store w) url (candidate w 0) (now_of (clock w))).
  rewrite Hfind. unfold ret. reflexivity.
Qed.

(** ** The retry loop *)

Lemma candidate_after_attempt (w : World) (j : nat) :
  candidate (after_attempt w) j = candidate w (S j).
Proof.
  unfold candidate, after_attempt. cbn [rng rand_tape rand_pos].
  f_equal. lia.
Qed.

(** What [n] attempts started in [w] do: either attempt [k] is the first
    whose candidate is free and its row is the one new row, or all [n]
    candidates are taken and nothing is stored. Attempts are counted by what
    each consumes: 7 draws and one clock reading. *)
Lemma loop_spec (n : nat) :
  forall (a : nat) (url : string) (w : World),
    session_new w = [] ->
    let out := create_short_url_loop (seq a n) url w in
    (exists k,
        (k < n)%nat
        /\ (forall j, (j < k)%nat ->
                      code_taken (candidate w j) (store w) = true)
        /\ code_taken (candidate w k) (store w) = false
        /\ fst out = Return (ShortenResponse.mk (candidate w k) url)
        /\ store (snd out)
           = mkStore
               (url_mappings (store w)
                ++ [new_mapping (store w) url (candidate w k)
                      (clock_tape (clock w) (clock_pos (clock w) + k))])
               (clicks (store w))
        /\ rng (snd out)
           = mkRng (rand_tape (rng w)) (rand_pos (rng w) + 7 * S k)
        /\ clock (snd out)
           = mkClock (clock_tape (clock w)) (clock_pos (clock w) + S k))
    \/ ((forall j, (j < n)%nat -> code_taken (candidate w j) (store w) = true)
        /\ fst out
           = Raise (HTTPException 500 "Failed to generate unique short code")
        /\ store (snd out) = store w
        /\ rng (snd out)
           = mkRng (rand_tape (rng w)) (rand_pos (rng w) + 7 * n)
        /\ clock (snd out)
           = mkClock (clock_tape (clock w)) (clock_pos (clock w) + n)).
Proof.
  induction n as [|n IH]; intros a url w Hnew out.
  - right. subst out. cbn [seq create_short_url_loop]. unfold raise.
    cbn [fst snd]. rewrite Nat.mul_0_r, !Nat.add_0_r.
    repeat split.
    + intros j Hj. lia.
    + now destruct (rng w).
    + now destruct (clock w).
  - destruct (code_taken (candidate w 0) (store w)) eqn:E.
    + assert (Hnew' : session_new (after_attempt w) = []) by reflexivity.
      specialize (IH (S a) url (after_attempt w) Hnew').
      subst out. cbn [seq]. rewrite (attempt_conflict _ _ _ _ Hnew E).
      cbv zeta in IH.
      destruct IH as [[k [Hk [Hbefore [Hfree [Hr [Hst [Hrng Hck]]]]]]]
                     | [Hall [Hr [Hst [Hrng Hck]]]]].
      * left. exists (S k). rewrite candidate_after_attempt in Hfree, Hr, Hst.
        cbn [after_attempt store rng clock tick rand_tape rand_pos
             clock_tape clock_pos] in *.
        repeat split.
        -- lia.
        -- intros [|j] Hj; [exact E|].
           rewrite <- candidate_after_attempt. apply Hbefore. lia.
        -- exact Hfree.
        -- exact Hr.
        -- rewrite Hst. unfold new_mapping.
           now rewrite Nat.add_succ_r.
        -- rewrite Hrng. f_equal. lia.
        -- rewrite Hck. f_equal. lia.
      * right.
        cbn [after_attempt store rng clock tick rand_tape rand_pos
             clock_tape clock_pos] in *.
        repeat split.
        -- intros [|j] Hj; [exact E|].
           rewrite <- candidate_after_attempt. apply Hall. lia.
        -- exact Hr.
        -- exact Hst.
        -- rewrite Hrng. f_equal. lia.
        -- rewrite Hck. f_equal. lia.
    + left. exists 0%nat. subst out. cbn [seq].
      rewrite (attempt_success _ _ _ _ Hnew E). cbn [fst snd store rng clock].
      unfold after_attempt, tick, now_of. cbn [rng clock].
      rewrite !Nat.add_0_r.
      repeat split.
      * lia.
      * intros j Hj. lia.
      * exact E.
      * f_equal. lia.
Qed.

(** ** Running a handler in its own session *)

Lemma get_db_fst {A} (h : M A) (w : World) :
  fst (get_db h w) = fst (h (fresh_session w)).
Proof.
  unfold get_db, fresh_session. now destruct (h _) as [r w'].
Qed.

Lemma get_db_store {A} (h : M A) (w : World) :
  store (snd (get_db h w)) = store (snd (h (fresh_session w))).
Proof.
  unfold get_db, fresh_session. now destruct (h _) as [r w'].
Qed.

Lemma get_db_rng {A} (h : M A) (w : World) :
  rng (snd (get_db h w)) = rng (snd (h (fresh_session w))).
Proof.
  unfold get_db, fresh_session. now destruct (h _) as [r w'].
Qed.

Lemma get_db_clock {A} (h : M A) (w : World) :
  clock (snd (get_db h w)) = clock (snd (h (fresh_session w))).
Proof.
  unfold get_db, fresh_session. now destruct (h _) as [r w'].
Qed.

Lemma get_db_session {A} (h : M A) (w : World) :
  session_new (snd (get_db h w)) = [].
Proof.
  unfold get_db. now destruct (h _) as [r w'].
Qed.

(** ** The redirect and the statistics handlers, step by step *)

Lemma redirect_not_found (short_code : string) (request : Request.t)
      (w : World) :
  first_by_short_code short_code (store w) = None ->
  redirect_short_code short_code request w
  = (Raise (HTTPException 404 "Short code not found"), w).
Proof.
  intros H. unfold redirect_short_code, bind, query_first_by_short_code.
  unfold first_by_short_code in H. now rewrite H.
Qed.

Lemma redirect_found (short_code : string) (request : Request.t)
      (w : World) (m : UrlMapping.t) :
  session_new w = [] ->
  first_by_short_code short_code (store w) = Some m ->
  redirect_short_code short_code request w
  = (Return (RedirectResponse.mk (UrlMapping.original_url m) 302),
     mkWorld
       (mkStore (url_mappings (store w))
                (clicks (store w)
                 ++ [new_click (store w) (UrlMapping.id m)
                               (client_host_of request)
                               (user_agent_of request)
                               (now_of (clock w))]))
       [] (rng w) (tick (clock w))).
Proof.
  intros Hnew H. unfold redirect_short_code, query_first_by_short_code.
  unfold bind at 1. unfold first_by_short_code in H. rewrite H.
  unfold bind at 1, db_add at 1, bind, db_commit.
  cbn [store session_new rng clock]. rewrite Hnew.
  cbn [app flush insert]. reflexivity.
Qed.

Lemma get_stats_not_found (short_code : string) (w : World) :
  first_by_short_code short_code (store w) = None ->
  get_stats short_code w
  = (Raise (HTTPException 404 "Short code not found"), w).
Proof.
  intros H. unfold get_stats, bind, query_first_by_short_code.
  unfold first_by_short_code in H. now rewrite H.
Qed.

Lemma get_stats_found (short_code : string) (w : World) (m : UrlMapping.t) :
  first_by_short_code short_code (store w) = Some m ->
  get_stats short_code w
  = (Return (StatsResponse.mk (UrlMapping.short_code m)
                              (UrlMapping.original_url m)
                              (count_clicks (UrlMapping.id m) (store w))
                              (UrlMapping.created_at m)),
     w).
Proof.
  intros H. unfold get_stats, bind, query_first_by_short_code.
  unfold first_by_short_code in H. now rewrite H.
Qed.

(** ** Transactions and the invariants they keep *)

Lemma insert_mapping_inv (original_url short_code : string) (now : datetime)
      (st st' : Store) (pk : Z) :
  insert (NewUrlMapping original_url short_code) now st = Some (st', pk) ->
  code_taken short_code st = false
  /\ st' = mkStore
             (url_mappings st ++ [new_mapping st original_url short_code now])
             (clicks st).
Proof.
  cbn [insert]. destruct (code_taken short_code st); [discriminate|].
  intros H. inversion H; subst. now split.
Qed.

Lemma insert_mapping_free (original_url short_code : string) (now : datetime)
      (st : Store) :
  code_taken short_code st = false ->
  insert (NewUrlMapping original_url short_code) now st
  = Some (mkStore
            (url_mappings st ++ [new_mapping st original_url short_code now])
            (clicks st),
          next_rowid (map UrlMapping.id (url_mappings st))).
Proof.
  intros H. cbn [insert]. now rewrite H.
Qed.

Lemma insert_click_inv (url_id : Z) (ip_address user_agent : string)
      (now : datetime) (st st' : Store) (pk : Z) :
  insert (NewClick url_id ip_address user_agent) now st = Some (st', pk) ->
  st' = mkStore
          (url_mappings st)
          (clicks st ++ [new_click st url_id ip_address user_agent now]).
Proof.
  cbn [insert]. intros H. now inversion H.
Qed.

Lemma NoDup_snoc {A} (l : list A) (x : A) :
  NoDup l -> ~ In x l -> NoDup (l ++ [x]).
Proof.
  intros Hl Hx. apply NoDup_app.
  - exact Hl.
  - constructor; [intros [] | constructor].
  - intros a Ha [<- | []]. contradiction.
Qed.

Lemma transaction_unique_short_codes (st st' : Store) :
  transaction st st' -> unique_short_codes st -> unique_short_codes st'.
Proof.
  unfold unique_short_codes.
  intros [st0 st1 u c now pk H | st0 st1 uid ip ua now pk H] Hu.
  - apply insert_mapping_inv in H. destruct H as [Hfree ->].
    cbn [url_mappings]. rewrite map_app. cbn [map new_mapping].
    cbn [UrlMapping.short_code]. apply NoDup_snoc; [exact Hu|].
    intros Hin. apply in_map_iff in Hin. destruct Hin as [m [Hm Hin]].
    rewrite code_free_iff in Hfree. now apply (Hfree m Hin).
  - apply insert_click_inv in H. subst st1. exact Hu.
Qed.

Lemma transaction_unique_ids (st st' : Store) :
  transaction st st' -> unique_ids st -> unique_ids st'.
Proof.
  unfold unique_ids.
  intros [st0 st1 u c now pk H | st0 st1 uid ip ua now pk H] Hu.
  - apply insert_mapping_inv in H. destruct H as [_ ->].
    cbn [url_mappings]. rewrite map_app. cbn [map new_mapping].
    cbn [UrlMapping.id]. apply NoDup_snoc; [exact Hu|].
    intros Hin. apply next_rowid_above in Hin.
    unfold new_mapping in Hin. cbn [UrlMapping.id] in Hin. lia.
  - apply insert_click_inv in H. subst st1. exact Hu.
Qed.

Lemma reachable_unique_short_codes (st : Store) :
  reachable st -> unique_short_codes st.
Proof.
  induction 1 as [|st st' _ IH Htx].
  - constructor.
  - exact (transaction_unique_short_codes _ _ Htx IH).
Qed.

Lemma reachable_unique_ids (st : Store) :
  reachable st -> unique_ids st.
Proof.
  induction 1 as [|st st' _ IH Htx].
  - constructor.
  - exact (transaction_unique_ids _ _ Htx IH).
Qed.

Lemma transactions_reachable (st st' : Store) :
  transactions st st' -> reachable st -> reachable st'.
Proof.
  induction 1 as [|st st' st'' Htx _ IH]; intros Hr; [exact Hr|].
  apply IH. exact (reachable_tx _ _ Hr Htx).
Qed.

Lemma transactions_unique_short_codes (st st' : Store) :
  transactions st st' -> unique_short_codes st -> unique_short_codes st'.
Proof.
  induction 1 as [|st st' st'' Htx _ IH]; intros Hu; [exact Hu|].
  apply IH. exact (transaction_unique_short_codes _ _ Htx Hu).
Qed.

(** A code once stored stays taken: rows are only ever appended. *)
Lemma transaction_keeps_codes (st st' : Store) (code : string) :
  transaction st st' -> code_taken code st = true -> code_taken code st' = true.
Proof.
  intros [st0 st1 u c now pk H | st0 st1 uid ip ua now pk H] Ht.
  - apply insert_mapping_inv in H. destruct H as [_ ->].
    apply code_taken_iff in Ht. destruct Ht as [m [Hin Hc]].
    apply code_taken_iff. exists m. cbn [url_mappings].
    split; [apply in_or_app; now left | exact Hc].
  - apply insert_click_inv in H. subst st1. exact Ht.
Qed.

Lemma transactions_keep_codes (st st' : Store) (code : string) :
  transactions st st' -> code_taken code st = true -> code_taken code st' = true.
Proof.
  induction 1 as [|st st' st'' Htx _ IH]; intros Ht; [exact Ht|].
  apply IH. exact (transaction_keeps_codes _ _ _ Htx Ht).
Qed.

(** Each handler commits at most one transaction. *)
Lemma serve_transactions (c : Call) (w : World) :
  transactions (store w) (store (serve c w)).
Proof.
  destruct c as [payload | short_code request | short_code]; cbn [serve].
  - rewrite get_db_store. unfold create_short_url, range.
    destruct (loop_spec 5 0 (ShortenRequest.original_url payload)
                        (fresh_session w) eq_refl)
      as [[k [_ [_ [Hfree [_ [Hst _]]]]]] | [_ [_ [Hst _]]]].
    + rewrite Hst. cbn [fresh_session store clock] in *.
      eapply txs_more; [|apply txs_none].
      eapply tx_mapping. apply insert_mapping_free. exact Hfree.
    + rewrite Hst. apply txs_none.
  - rewrite get_db_store.
    destruct (first_by_short_code short_code (store w)) as [m|] eqn:E.
    + rewrite (redirect_found _ _ (fresh_session w) m eq_refl E).
      cbn [snd store fresh_session clock].
      eapply txs_more; [|apply txs_none].
      eapply tx_click. cbn [insert]. reflexivity.
    + rewrite (redirect_not_found _ _ (fresh_session w) E). apply txs_none.
  - rewrite get_db_store.
    destruct (first_by_short_code short_code (store w)) as [m|] eqn:E.
    + rewrite (get_stats_found _ (fresh_session w) m E). apply txs_none.
    + rewrite (get_stats_not_found _ (fresh_session w) E). apply txs_none.
Qed.

(** ** The sample stores are stores the service produces *)

Example issued_store_served :
  store (serve (Shorten sample_payload) (stuck_world empty_store))
  = issued_store.
Proof. vm_compute. reflexivity. Qed.

Example two_codes_world_served :
  serve (Shorten (ShortenRequest.mk "https://example.com/b"))
        (serve (Shorten sample_payload) sample_world)
  = two_codes_world.
Proof. reflexivity. Qed.

Lemma issued_store_reachable : reachable issued_store.
Proof.
  apply (reachable_tx empty_store); [exact reachable_empty|].
  exact (tx_mapping empty_store issued_store
                    "https://example.com/a" "aaaaaaa" 100 1 eq_refl).
Qed.

Lemma two_codes_store_reachable : reachable two_codes_store.
Proof.
  apply (reachable_tx
           (mkStore [UrlMapping.mk 1 "https://example.com/a" "0123456" 100] [])).
  - apply (reachable_tx empty_store); [exact reachable_empty|].
    exact (tx_mapping empty_store _ "https://example.com/a" "0123456" 100 1
                      eq_refl).
  - exact (tx_mapping
             (mkStore [UrlMapping.mk 1 "https://example.com/a" "0123456" 100] [])
             two_codes_store "https://example.com/b" "789abcd" 101 2 eq_refl).
Qed.

(** * The claims *)

(** C1. A call of [create_short_url] makes at most 5 attempts, one after
    the other, each drawing a fresh 7-character candidate and committing one
    insert of it with the given URL. It answers with the candidate of the
    first attempt [k] whose insert succeeds, the store it leaves being the
    one that insert produced; the insert of every attempt before [k] failed
    on a taken code; and it makes no attempt after [k]: exactly [k + 1]
    candidates are drawn and [k + 1] commits run. When the inserts of all 5
    candidates fail it raises the [HTTPException] that FastAPI answers with
    status 500, after exactly 5 attempts, and the store is as it was. *)
Theorem create_short_url_attempts :
  forall (payload : ShortenRequest.t) (w : World),
    let out := get_db (create_short_url payload) w in
    let original_url := ShortenRequest.original_url payload in
    let reading := fun j => clock_tape (clock w) (clock_pos (clock w) + j) in
    (exists k,
        (k < 5)%nat
        /\ (forall j, (j < k)%nat ->
                      code_taken (candidate w j) (store w) = true
                      /\ insert (NewUrlMapping original_url (candidate w j))
                                (reading j) (store w) = None)
        /\ code_taken (candidate w k) (store w) = false
        /\ (exists pk,
               insert (NewUrlMapping original_url (candidate w k))
                      (reading k) (store w)
               = Some (store (snd out), pk))
        /\ fst out = Return (ShortenResponse.mk (candidate w k) original_url)
        /\ http_status (fun _ => 200) (fst out) = 200
        /\ rand_pos (rng (snd out)) = (rand_pos (rng w) + 7 * (k + 1))%nat
        /\ clock_pos (clock (snd out)) = (clock_pos (clock w) + (k + 1))%nat)
    \/ ((forall j, (j < 5)%nat ->
                   code_taken (candidate w j) (store w) = true
                   /\ insert (NewUrlMapping original_url (candidate w j))
                             (reading j) (store w) = None)
        /\ store (snd out) = store w
        /\ fst out
           = Raise (HTTPException 500 "Failed to generate unique short code")
        /\ http_status (fun _ => 200) (fst out) = 500
        /\ rand_pos (rng (snd out)) = (rand_pos (rng w) + 7 * 5)%nat
        /\ clock_pos (clock (snd out)) = (clock_pos (clock w) + 5)%nat).
Proof.
  intros payload w out original_url reading. subst out.
  rewrite get_db_fst, get_db_store, get_db_rng, get_db_clock.
  unfold create_short_url, range. fold original_url.
  assert (Hconflict : forall j,
             code_taken (candidate w j) (store w) = true ->
             insert (NewUrlMapping original_url (candidate w j))
                    (reading j) (store w) = None).
  { intros j Ht. cbn [insert]. now rewrite Ht. }
  destruct (loop_spec 5 0 original_url (fresh_session w) eq_refl)
    as [[k [Hk [Hbefore [Hfree [Hr [Hst [Hrng Hck]]]]]]]
       | [Hall [Hr [Hst [Hrng Hck]]]]];
    rewrite Hr, Hst, Hrng, Hck;
    cbn [rand_pos clock_pos http_status fresh_session store rng clock] in *.
  - left. exists k. replace (k + 1)%nat with (S k) by lia.
    split; [exact Hk|]. split.
    { intros j Hj. split; [exact (Hbefore j Hj)|].
      apply Hconflict. exact (Hbefore j Hj). }
    split; [exact Hfree|]. split.
    { eexists. now apply insert_mapping_free. }
    repeat split.
  - right. split.
    { intros j Hj. split; [exact (Hall j Hj)|].
      apply Hconflict. exact (Hall j Hj). }
    repeat split.
Qed.

(** One conflict, then success: the first candidate is taken, the second
    is stored, after 14 draws and 2 commits. *)
Example create_short_url_retries_once :
  let out := get_db (create_short_url (ShortenRequest.mk "https://example.com/b"))
                    one_code_world in
  fst out = Return (ShortenResponse.mk "789abcd" "https://example.com/b")
  /\ url_mappings (store (snd out))
     = [UrlMapping.mk 1 "https://example.com/a" "0123456" 100;
        UrlMapping.mk 2 "https://example.com/b" "789abcd" 102]
  /\ rand_pos (rng (snd out)) = 14%nat
  /\ clock_pos (clock (snd out)) = 3%nat.
Proof. vm_compute. repeat split. Qed.

(** The exhaustion scenario: with ["aaaaaaa"] issued and a generator stuck
    on it, the call fails with status 500 after 35 draws and 5 commits. *)
Example create_short_url_exhausted :
  let out := get_db (create_short_url sample_payload) (stuck_world issued_store) in
  fst out = Raise (HTTPException 500 "Failed to generate unique short code")
  /\ rand_pos (rng (snd out)) = 35%nat
  /\ clock_pos (clock (snd out)) = 5%nat
  /\ store (snd out) = issued_store.
Proof. vm_compute. repeat split. Qed.

(** C5. [create_short_url] either answers and leaves exactly one new row in
    [url_mappings], carrying the answered code and the given URL, or raises
    the 500 exception and leaves the table as it was; [clicks] is untouched
    either way. An attempt that hits a taken code hands the next attempt
    the very store it started from and a session holding no object. *)
Theorem create_short_url_all_or_nothing :
  forall (payload : ShortenRequest.t) (w : World),
    let out := get_db (create_short_url payload) w in
    let original_url := ShortenRequest.original_url payload in
    ((exists code m,
         fst out = Return (ShortenResponse.mk code original_url)
         /\ url_mappings (store (snd out))
            = (url_mappings (store w) ++ [m])%list
         /\ UrlMapping.short_code m = code
         /\ UrlMapping.original_url m = original_url)
     \/ (fst out
         = Raise (HTTPException 500 "Failed to generate unique short code")
         /\ url_mappings (store (snd out)) = url_mappings (store w)))
    /\ clicks (store (snd out)) = clicks (store w)
    /\ (forall (a : nat) (rest : list nat) (w0 : World),
           session_new w0 = [] ->
           code_taken (candidate w0 0) (store w0) = true ->
           create_short_url_loop (a :: rest) original_url w0
           = create_short_url_loop rest original_url (after_attempt w0)
           /\ store (after_attempt w0) = store w0
           /\ session_new (after_attempt w0) = []).
Proof.
  intros payload w out original_url. subst out.
  rewrite get_db_fst, get_db_store.
  unfold create_short_url, range. fold original_url.
  destruct (loop_spec 5 0 original_url (fresh_session w) eq_refl)
    as [[k [_ [_ [_ [Hr [Hst _]]]]]] | [_ [Hr [Hst _]]]];
    rewrite Hr, Hst; cbn [fresh_session store url_mappings clicks].
  - split; [left | split; [reflexivity|]].
    + eexists. eexists. repeat split.
    + intros a rest w0 Hnew Ht. rewrite (attempt_conflict _ _ _ _ Hnew Ht).
      repeat split.
  - split; [right; now split | split; [reflexivity|]].
    intros a rest w0 Hnew Ht. rewrite (attempt_conflict _ _ _ _ Hnew Ht).
    repeat split.
Qed.

(** C6. For a length [n >= 0], [generate_short_code n] returns a string of
    exactly [n] characters, each from [BASE62_CHARS]; [BASE62_CHARS] has 62
    distinct characters, which are the digits and the lower- and upper-case
    letters; and the code a successful [create_short_url] answers with has
    exactly 7 characters from that alphabet. *)
Theorem generate_short_code_shape :
  forall (n : Z) (w : World),
    0 <= n ->
    (exists code,
        generate_short_code n w = (Return code, drawn (Z.to_nat n) w)
        /\ Z.of_nat (String.length code) = n
        /\ Forall (fun c => In c (list_ascii_of_string BASE62_CHARS))
                  (list_ascii_of_string code))
    /\ String.length BASE62_CHARS = 62%nat
    /\ NoDup (list_ascii_of_string BASE62_CHARS)
    /\ (forall c, In c (list_ascii_of_string BASE62_CHARS)
                  <-> alphanumeric c = true)
    /\ (forall (payload : ShortenRequest.t) (w' : World)
               (resp : ShortenResponse.t),
           fst (get_db (create_short_url payload) w') = Return resp ->
           String.length (ShortenResponse.short_code resp) = 7%nat
           /\ Forall (fun c => alphanumeric c = true)
                     (list_ascii_of_string (ShortenResponse.short_code resp))).
Proof.
  intros n w Hn. repeat split.
  - exists (code_at (rand_tape (rng w)) (rand_pos (rng w)) (Z.to_nat n)).
    unfold generate_short_code. rewrite join_choices_run.
    split; [reflexivity|]. split.
    + rewrite code_at_length. lia.
    + apply code_at_in_alphabet.
  - vm_compute.
    repeat (constructor; [intros H; repeat (destruct H as [H|H];
                                            [discriminate H|]); exact H|]).
    constructor.
  - apply alphabet_is_alphanumeric.
  - apply alphabet_is_alphanumeric.
  - rewrite get_db_fst in H. unfold create_short_url, range in H.
    destruct (loop_spec 5 0 (ShortenRequest.original_url payload)
                        (fresh_session w') eq_refl)
      as [[k [_ [_ [_ [Hr _]]]]] | [_ [Hr _]]];
      rewrite Hr in H; inversion H; subst resp.
    cbn [ShortenResponse.short_code]. unfold candidate.
    apply code_at_length.
  - rewrite get_db_fst in H. unfold create_short_url, range in H.
    destruct (loop_spec 5 0 (ShortenRequest.original_url payload)
                        (fresh_session w') eq_refl)
      as [[k [_ [_ [_ [Hr _]]]]] | [_ [Hr _]]];
      rewrite Hr in H; inversion H; subst resp.
    cbn [ShortenResponse.short_code]. unfold candidate.
    eapply Forall_impl; [|apply code_at_in_alphabet].
    intros c Hc. now apply alphabet_is_alphanumeric.
Qed.

Lemma generate_short_code_shape_witness :
  0 <= 7
  /\ exists code,
      generate_short_code 7 sample_world = (Return code, drawn 7 sample_world)
      /\ Z.of_nat (String.length code) = 7
      /\ Forall (fun c => In c (list_ascii_of_string BASE62_CHARS))
                (list_ascii_of_string code).
Proof.
  split; [lia|].
  exact (proj1 (generate_short_code_shape 7 sample_world ltac:(lia))).
Defined.

Lemma create_short_url_all_or_nothing_witness :
  session_new (stuck_world issued_store) = []
  /\ code_taken (candidate (stuck_world issued_store) 0)
                (store (stuck_world issued_store)) = true
  /\ create_short_url_loop (range 5) "https://example.com/a"
                           (stuck_world issued_store)
     = create_short_url_loop (range 4) "https://example.com/a"
                             (after_attempt (stuck_world issued_store))
  /\ store (after_attempt (stuck_world issued_store)) = issued_store.
Proof.
  split; [reflexivity|]. split; [reflexivity|].
  destruct (create_short_url_all_or_nothing
              sample_payload (stuck_world issued_store))
    as [_ [_ Hrollback]].
  destruct (Hrollback 0%nat (seq 1 4) (stuck_world issued_store)
                      eq_refl eq_refl) as [Hloop [Hstore _]].
  split; [exact Hloop | exact Hstore].
Defined.

(** C2. In every reachable store no two rows of [url_mappings] share a
    [short_code]; each of the three handlers keeps it so and leaves a
    reachable store reachable. Two inserts of the same code never both
    succeed, whichever commits first and whatever other transactions
    commit in between: the insert itself fails on the taken code, no
    earlier lookup is involved. *)
Theorem short_codes_stay_unique :
  (forall st, reachable st -> unique_short_codes st)
  /\ (forall (c : Call) (w : World),
         unique_short_codes (store w) ->
         unique_short_codes (store (serve c w)))
  /\ (forall (c : Call) (w : World),
         reachable (store w) -> reachable (store (serve c w)))
  /\ (forall (st st1 st2 : Store) (url1 url2 code : string)
             (now1 now2 : datetime) (pk1 : Z),
         insert (NewUrlMapping url1 code) now1 st = Some (st1, pk1) ->
         transactions st1 st2 ->
         insert (NewUrlMapping url2 code) now2 st2 = None).
Proof.
  repeat split.
  - apply reachable_unique_short_codes.
  - intros c w Hu.
    exact (transactions_unique_short_codes _ _ (serve_transactions c w) Hu).
  - intros c w Hr.
    exact (transactions_reachable _ _ (serve_transactions c w) Hr).
  - intros st st1 st2 url1 url2 code now1 now2 pk1 H1 Htxs.
    apply insert_mapping_inv in H1. destruct H1 as [_ ->].
    assert (Ht : code_taken code st2 = true).
    { apply (transactions_keep_codes _ _ _ Htxs).
      apply code_taken_iff. eexists. split.
      - cbn [url_mappings]. apply in_or_app. right. now left.
      - reflexivity. }
    cbn [insert]. now rewrite Ht.
Qed.

Lemma short_codes_stay_unique_witness :
  reachable issued_store
  /\ unique_short_codes issued_store
  /\ reachable (store (serve (Resolve "aaaaaaa" sample_request)
                             (stuck_world issued_store)))
  /\ insert (NewUrlMapping "https://example.com/b" "aaaaaaa") 105 issued_store
     = None.
Proof.
  split; [exact issued_store_reachable|]. split; [|split].
  - exact (proj1 short_codes_stay_unique issued_store issued_store_reachable).
  - exact (proj1 (proj2 (proj2 short_codes_stay_unique))
                 (Resolve "aaaaaaa" sample_request) (stuck_world issued_store)
                 issued_store_reachable).
  - exact (proj2 (proj2 (proj2 short_codes_stay_unique))
                 empty_store issued_store issued_store
                 "https://example.com/a" "https://example.com/b" "aaaaaaa"
                 100 105 1 eq_refl (txs_none issued_store)).
Defined.

(** ** Lookups *)

Lemma first_none_iff (code : string) (st : Store) :
  first_by_short_code code st = None <-> code_taken code st = false.
Proof. apply find_by_code_none. Qed.

Lemma first_in (code : string) (st : Store) (m : UrlMapping.t) :
  first_by_short_code code st = Some m ->
  In m (url_mappings st) /\ UrlMapping.short_code m = code.
Proof. apply find_by_code_in. Qed.

(** Under the uniqueness invariant the row a lookup finds is the row that
    carries the code. *)
Lemma unique_first (code : string) (st : Store) (m : UrlMapping.t) :
  unique_short_codes st ->
  In m (url_mappings st) -> UrlMapping.short_code m = code ->
  first_by_short_code code st = Some m.
Proof.
  unfold unique_short_codes, first_by_short_code.
  induction (url_mappings st) as [|r rs IH]; intros Hu Hin Hc.
  - destruct Hin.
  - cbn [map] in Hu. inversion Hu as [|x xs Hnotin Hu']; subst.
    cbn [find]. destruct Hin as [-> | Hin].
    + now rewrite String.eqb_refl.
    + destruct (String.eqb_spec (UrlMapping.short_code r)
                                (UrlMapping.short_code m)) as [E|E].
      * exfalso. apply Hnotin. rewrite E. now apply in_map.
      * now apply IH.
Qed.

Lemma headers_get_absent (hs : list (string * string)) (key default : string) :
  (forall k v, In (k, v) hs -> k <> key) ->
  Request.headers_get hs key default = default.
Proof.
  induction hs as [|[k v] hs IH]; intros H; cbn [Request.headers_get].
  - reflexivity.
  - destruct (String.eqb_spec k key) as [E|E].
    + exfalso. apply (H k v); [now left | exact E].
    + apply IH. intros k' v' Hin. apply (H k' v'). now right.
Qed.

Lemma headers_get_first (pre post : list (string * string))
      (key v default : string) :
  (forall k v', In (k, v') pre -> k <> key) ->
  Request.headers_get (pre ++ (key, v) :: post) key default = v.
Proof.
  induction pre as [|[k v'] pre IH]; intros H; cbn [app Request.headers_get].
  - now rewrite String.eqb_refl.
  - destruct (String.eqb_spec k key) as [E|E].
    + exfalso. apply (H k v'); [now left | exact E].
    + apply IH. intros k' v'' Hin. apply (H k' v''). now right.
Qed.

(** C3. For any string [short_code]: when no row carries it,
    [redirect_short_code] raises the 404 [HTTPException] and stores
    nothing; when the lookup finds row [m] (the row carrying the code, in a
    store with unique codes), it answers with a 302 redirect to [m]'s
    [original_url] and stores exactly one new click, whose [url_id] is [m]'s
    id, whose [ip_address] is the peer's host, or ["unknown"] without a
    peer, and whose [user_agent] is the value of the request's (first)
    [User-Agent] header, or ["unknown"] without one. *)
Theorem redirect_short_code_spec :
  forall (short_code : string) (request : Request.t) (w : World),
    let out := get_db (redirect_short_code short_code request) w in
    (code_taken short_code (store w) = false ->
     fst out = Raise (HTTPException 404 "Short code not found")
     /\ http_status RedirectResponse.status_code (fst out) = 404
     /\ store (snd out) = store w)
    /\ (forall m,
           first_by_short_code short_code (store w) = Some m ->
           fst out
           = Return (RedirectResponse.mk (UrlMapping.original_url m) 302)
           /\ http_status RedirectResponse.status_code (fst out) = 302
           /\ url_mappings (store (snd out)) = url_mappings (store w)
           /\ exists click,
               clicks (store (snd out)) = (clicks (store w) ++ [click])%list
               /\ Click.url_id click = UrlMapping.id m
               /\ Click.ip_address click
                  = match Request.client request with
                    | Some a => Request.host a
                    | None => "unknown"
                    end
               /\ (forall a, Request.client request = Some a ->
                             Click.ip_address click = Request.host a)
               /\ (Request.client request = None ->
                   Click.ip_address click = "unknown")
               /\ Click.user_agent click
                  = Request.headers_get (Request.headers request)
                                        "user-agent" "unknown"
               /\ (forall pre v post,
                      Request.headers request
                      = (pre ++ ("user-agent", v) :: post)%list ->
                      (forall k v', In (k, v') pre -> k <> "user-agent") ->
                      Click.user_agent click = v)
               /\ ((forall k v, In (k, v) (Request.headers request) ->
                                k <> "user-agent") ->
                   Click.user_agent click = "unknown"))
    /\ (forall m,
           unique_short_codes (store w) ->
           In m (url_mappings (store w)) ->
           UrlMapping.short_code m = short_code ->
           first_by_short_code short_code (store w) = Some m).
Proof.
  intros short_code request w out. subst out.
  rewrite get_db_fst, get_db_store. split; [|split].
  - intros H. apply first_none_iff in H.
    rewrite (redirect_not_found _ _ (fresh_session w) H). repeat split.
  - intros m H.
    rewrite (redirect_found _ _ (fresh_session w) m eq_refl H).
    cbn [fst snd store clicks url_mappings fresh_session http_status
         RedirectResponse.status_code].
    split; [reflexivity|]. split; [reflexivity|]. split; [reflexivity|].
    eexists. split; [reflexivity|].
    cbn [new_click Click.url_id Click.ip_address Click.user_agent].
    unfold client_host_of, user_agent_of.
    split; [reflexivity|]. split; [reflexivity|]. split.
    { intros a Ha. now rewrite Ha. }
    split.
    { intros Hnone. now rewrite Hnone. }
    split; [reflexivity|]. split.
    { intros pre v post Hhs Hpre. rewrite Hhs. now apply headers_get_first. }
    intros Habsent. now apply headers_get_absent.
  - intros m Hu Hin Hc. now apply unique_first.
Qed.

Lemma redirect_short_code_spec_witness :
  code_taken "zzzzzzz" (store (stuck_world issued_store)) = false
  /\ fst (get_db (redirect_short_code "zzzzzzz" bare_request)
                 (stuck_world issued_store))
     = Raise (HTTPException 404 "Short code not found")
  /\ first_by_short_code "aaaaaaa" (store (stuck_world issued_store))
     = Some (UrlMapping.mk 1 "https://example.com/a" "aaaaaaa" 100)
  /\ fst (get_db (redirect_short_code "aaaaaaa" sample_request)
                 (stuck_world issued_store))
     = Return (RedirectResponse.mk "https://example.com/a" 302)
  /\ exists click,
      clicks (store (snd (get_db (redirect_short_code "aaaaaaa" sample_request)
                                 (stuck_world issued_store))))
      = (clicks (store (stuck_world issued_store)) ++ [click])%list
      /\ Click.url_id click = 1
      /\ Click.ip_address click = "203.0.113.7"
      /\ Click.user_agent click = "curl/8.5.0".
Proof.
  split; [reflexivity|]. split.
  - exact (proj1 (proj1 (redirect_short_code_spec
                           "zzzzzzz" bare_request (stuck_world issued_store))
                        eq_refl)).
  - split; [reflexivity|].
    destruct (proj1 (proj2 (redirect_short_code_spec
                              "aaaaaaa" sample_request
                              (stuck_world issued_store)))
                    (UrlMapping.mk 1 "https://example.com/a" "aaaaaaa" 100)
                    eq_refl)
      as [Hr [_ [_ [click [Hclicks [Hid [_ [Hhost [_ [_ [Hfirst _]]]]]]]]]]].
    split; [exact Hr|]. exists click.
    split; [exact Hclicks|]. split; [exact Hid|]. split.
    + exact (Hhost (Request.mkAddress "203.0.113.7" 51234) eq_refl).
    + apply (Hfirst [("host", "sho.rt")] "curl/8.5.0" []); [reflexivity|].
      intros k v' [H | []]. inversion H. discriminate.
Defined.

(** The click a bare request leaves: both fields hold ["unknown"]. *)
Example redirect_bare_request_click :
  clicks (store (serve (Resolve "aaaaaaa" bare_request)
                       (stuck_world issued_store)))
  = [Click.mk 1 1 100 "unknown" "unknown"].
Proof. reflexivity. Qed.

(** C7. For any string [short_code]: when no row carries it, [get_stats]
    raises the 404 [HTTPException]; when the lookup finds row [m], it
    answers with [m]'s [short_code], [original_url] and [created_at] and
    with [total_clicks] the number of rows of [clicks] whose [url_id] is
    [m]'s id, and changes nothing. *)
Theorem get_stats_spec :
  forall (short_code : string) (w : World),
    let out := get_db (get_stats short_code) w in
    (code_taken short_code (store w) = false ->
     fst out = Raise (HTTPException 404 "Short code not found")
     /\ http_status (fun _ => 200) (fst out) = 404)
    /\ (forall m,
           first_by_short_code short_code (store w) = Some m ->
           UrlMapping.short_code m = short_code
           /\ fst out
              = Return
                  (StatsResponse.mk
                     short_code
                     (UrlMapping.original_url m)
                     (Z.of_nat
                        (List.length
                           (filter
                              (fun c => Z.eqb (Click.url_id c) (UrlMapping.id m))
                              (clicks (store w)))))
                     (UrlMapping.created_at m))
           /\ http_status (fun _ => 200) (fst out) = 200)
    /\ (forall m,
           unique_short_codes (store w) ->
           In m (url_mappings (store w)) ->
           UrlMapping.short_code m = short_code ->
           first_by_short_code short_code (store w) = Some m)
    /\ store (snd out) = store w.
Proof.
  intros short_code w out. subst out.
  rewrite get_db_fst, get_db_store. repeat split.
  - apply first_none_iff in H.
    now rewrite (get_stats_not_found _ (fresh_session w) H).
  - apply first_none_iff in H.
    now rewrite (get_stats_not_found _ (fresh_session w) H).
  - now apply first_in in H.
  - rewrite (get_stats_found _ (fresh_session w) m H).
    apply first_in in H. destruct H as [_ <-]. reflexivity.
  - now rewrite (get_stats_found _ (fresh_session w) m H).
  - intros m Hu Hin Hc. now apply unique_first.
  - destruct (first_by_short_code short_code (store w)) as [m|] eqn:E.
    + now rewrite (get_stats_found _ (fresh_session w) m E).
    + now rewrite (get_stats_not_found _ (fresh_session w) E).
Qed.

Lemma get_stats_spec_witness :
  code_taken "zzzzzzz" (store (stuck_world issued_store)) = false
  /\ fst (get_db (get_stats "zzzzzzz") (stuck_world issued_store))
     = Raise (HTTPException 404 "Short code not found")
  /\ first_by_short_code "aaaaaaa" (store (stuck_world issued_store))
     = Some (UrlMapping.mk 1 "https://example.com/a" "aaaaaaa" 100)
  /\ fst (get_db (get_stats "aaaaaaa") (stuck_world issued_store))
     = Return (StatsResponse.mk "aaaaaaa" "https://example.com/a" 0 100).
Proof.
  split; [reflexivity|]. split.
  - exact (proj1 (proj1 (get_stats_spec "zzzzzzz" (stuck_world issued_store))
                        eq_refl)).
  - split; [reflexivity|].
    exact (proj1 (proj2 (proj1 (proj2 (get_stats_spec
                                         "aaaaaaa" (stuck_world issued_store)))
                               (UrlMapping.mk 1 "https://example.com/a"
                                              "aaaaaaa" 100)
                               eq_refl))).
Defined.

(** ** What later requests leave in place *)

Lemma transaction_keeps_first (st st' : Store) (code : string)
      (m : UrlMapping.t) :
  transaction st st' ->
  first_by_short_code code st = Some m ->
  first_by_short_code code st' = Some m.
Proof.
  unfold first_by_short_code.
  intros [st0 st1 u c now pk H | st0 st1 uid ip ua now pk H] Hf.
  - apply insert_mapping_inv in H. destruct H as [_ ->].
    cbn [url_mappings]. now apply find_app_old.
  - apply insert_click_inv in H. subst st1. exact Hf.
Qed.

Lemma transactions_keep_first (st st' : Store) (code : string)
      (m : UrlMapping.t) :
  transactions st st' ->
  first_by_short_code code st = Some m ->
  first_by_short_code code st' = Some m.
Proof.
  induction 1 as [|st st' st'' Htx _ IH]; intros Hf; [exact Hf|].
  apply IH. exact (transaction_keeps_first _ _ _ _ Htx Hf).
Qed.

Lemma transactions_trans (st st' st'' : Store) :
  transactions st st' -> transactions st' st'' -> transactions st st''.
Proof.
  induction 1 as [|st0 st1 st2 Htx _ IH]; intros H'; [exact H'|].
  eapply txs_more; [exact Htx | now apply IH].
Qed.

Lemma serve_all_transactions (calls : list Call) :
  forall w, transactions (store w) (store (serve_all calls w)).
Proof.
  unfold serve_all.
  induction calls as [|c calls IH]; intros w; cbn [fold_left].
  - apply txs_none.
  - eapply transactions_trans; [apply serve_transactions | apply IH].
Qed.

Lemma serve_resolve_store (code : string) (request : Request.t) (w : World)
      (m : UrlMapping.t) :
  first_by_short_code code (store w) = Some m ->
  store (serve (Resolve code request) w)
  = mkStore (url_mappings (store w))
            (clicks (store w)
             ++ [new_click (store w) (UrlMapping.id m)
                           (client_host_of request) (user_agent_of request)
                           (now_of (clock w))]).
Proof.
  intros H. cbn [serve]. rewrite get_db_store.
  now rewrite (redirect_found _ _ (fresh_session w) m eq_refl H).
Qed.

Lemma serve_stats_store (code : string) (w : World) :
  store (serve (Stats code) w) = store w.
Proof.
  cbn [serve]. rewrite get_db_store.
  destruct (first_by_short_code code (store w)) as [m|] eqn:E.
  - now rewrite (get_stats_found _ (fresh_session w) m E).
  - now rewrite (get_stats_not_found _ (fresh_session w) E).
Qed.

Lemma count_clicks_snoc (uid : Z) (ms : list UrlMapping.t)
      (cs : list Click.t) (c : Click.t) :
  count_clicks uid (mkStore ms (cs ++ [c]))
  = count_clicks uid (mkStore ms cs)
    + (if Z.eqb (Click.url_id c) uid then 1 else 0).
Proof.
  unfold count_clicks. cbn [clicks].
  rewrite filter_app, length_app. cbn [filter].
  destruct (Z.eqb (Click.url_id c) uid); cbn [List.length]; lia.
Qed.

Lemma count_clicks_store (uid : Z) (st : Store) :
  count_clicks uid (mkStore (url_mappings st) (clicks st))
  = count_clicks uid st.
Proof. reflexivity. Qed.

Lemma NoDup_map_injective {A B} (f : A -> B) (l : list A) (x y : A) :
  NoDup (map f l) -> In x l -> In y l -> f x = f y -> x = y.
Proof.
  induction l as [|a l IH]; intros Hn Hx Hy Hf; [destruct Hx|].
  cbn [map] in Hn. inversion Hn as [|b bs Hnotin Hn']; subst.
  destruct Hx as [-> | Hx], Hy as [-> | Hy].
  - reflexivity.
  - exfalso. apply Hnotin. rewrite Hf. now apply in_map.
  - exfalso. apply Hnotin. rewrite <- Hf. now apply in_map.
  - now apply IH.
Qed.

(** The handler's side of the round trip: when [create_short_url] answers
    a request for URL [U] with code [C], [redirect_short_code] on [C]
    passes exactly [U] to [RedirectResponse], right away and after any
    further requests have been served. *)
Lemma shorten_then_resolve :
  forall (payload : ShortenRequest.t) (w : World) (resp : ShortenResponse.t),
    fst (get_db (create_short_url payload) w) = Return resp ->
    forall (calls : list Call) (request : Request.t),
      ShortenResponse.original_url resp = ShortenRequest.original_url payload
      /\ fst (get_db (redirect_short_code (ShortenResponse.short_code resp)
                                          request)
                     (serve_all calls (serve (Shorten payload) w)))
         = Return (RedirectResponse.mk (ShortenRequest.original_url payload)
                                       302).
Proof.
  intros payload w resp Hresp calls request.
  set (U := ShortenRequest.original_url payload).
  assert (H : ShortenResponse.original_url resp = U
              /\ exists m,
                  first_by_short_code (ShortenResponse.short_code resp)
                                      (store (serve (Shorten payload) w))
                  = Some m
                  /\ UrlMapping.original_url m = U).
  { cbn [serve]. rewrite get_db_fst in Hresp. rewrite get_db_store.
    unfold create_short_url, range in *. fold U in Hresp. fold U.
    destruct (loop_spec 5 0 U (fresh_session w) eq_refl)
      as [[k [_ [_ [Hfree [Hr [Hst _]]]]]] | [_ [Hr _]]];
      rewrite Hr in Hresp; inversion Hresp; subst resp.
    cbn [ShortenResponse.original_url ShortenResponse.short_code].
    split; [reflexivity|]. rewrite Hst.
    eexists. split.
    - unfold first_by_short_code. cbn [url_mappings]. apply find_app_fresh.
      + intros y Hy. apply String.eqb_neq.
        rewrite code_free_iff in Hfree. now apply Hfree.
      + cbn [new_mapping UrlMapping.short_code]. apply String.eqb_refl.
    - reflexivity. }
  destruct H as [HU [m [Hfirst Hm]]]. split; [exact HU|].
  rewrite get_db_fst.
  pose proof (transactions_keep_first
                _ _ _ _ (serve_all_transactions calls _) Hfirst) as Hlater.
  rewrite (redirect_found _ _ (fresh_session _) m eq_refl Hlater).
  cbn [fst]. now rewrite Hm.
Qed.

(** ** The [Location] header *)

Lemma quote_length (safe : string) (s : string) :
  (String.length s <= String.length (quote s safe))%nat.
Proof.
  induction s as [|c rest IH]; cbn [quote]; [apply Nat.le_refl|].
  destruct (char_in c ALWAYS_SAFE || char_in c safe);
    cbn [percent_encode String.append String.length]; lia.
Qed.

Lemma quote_unchanged_iff (safe : string) (s : string) :
  quote s safe = s
  <-> Forall (fun c => char_in c ALWAYS_SAFE || char_in c safe = true)
             (list_ascii_of_string s).
Proof.
  induction s as [|c rest IH]; cbn [quote list_ascii_of_string].
  - split; [constructor | reflexivity].
  - destruct (char_in c ALWAYS_SAFE || char_in c safe) eqn:E;
      cbn [percent_encode String.append].
    + split.
      * intros H. injection H as Hrest. constructor; [exact E|].
        now apply IH.
      * intros H. inversion H as [|x xs _ Hrest]; subst.
        f_equal. now apply IH.
    + split.
      * intros H. exfalso. injection H as _ Hrest.
        pose proof (quote_length safe rest) as Hlen.
        apply (f_equal String.length) in Hrest.
        cbn [String.length] in Hrest. lia.
      * intros H. inversion H as [|x xs Hc _]; subst. congruence.
Qed.

Lemma all_location_safe (s : string) :
  forallb location_safe (list_ascii_of_string s) = true ->
  Forall (fun c => location_safe c = true) (list_ascii_of_string s).
Proof.
  intros H. apply Forall_forall. intros c Hc.
  exact (proj1 (forallb_forall _ _) H c Hc).
Qed.

(** C4 as stated fails: the URL [https://example.com/?q={x}] is shortened,
    and the redirect through its code carries a [Location] header in which
    the braces are escaped, not the URL byte for byte. *)
Lemma location_not_byte_for_byte :
  exists resp r,
    fst (get_db (create_short_url braces_payload) sample_world) = Return resp
    /\ fst (get_db (redirect_short_code (ShortenResponse.short_code resp)
                                        bare_request)
                   (serve (Shorten braces_payload) sample_world))
       = Return r
    /\ location_header r = "https://example.com/?q=%7Bx%7D"
    /\ location_header r <> ShortenRequest.original_url braces_payload.
Proof.
  exists (ShortenResponse.mk "0123456" "https://example.com/?q={x}").
  exists (RedirectResponse.mk "https://example.com/?q={x}" 302).
  split; [vm_compute; reflexivity|]. split; [vm_compute; reflexivity|].
  split; [vm_compute; reflexivity|].
  vm_compute. discriminate.
Qed.

(** C4, amended. When [create_short_url] answers a request for URL [U]
    (the string form of the validated [original_url]) with code [C], a
    redirect through [C], right away or after any further requests,
    answers 302 with [U] unchanged as the [url] the handler gives to
    [RedirectResponse]; the [Location] header sent is [U] percent-quoted,
    and it is [U] byte for byte exactly when every byte of [U] is an ASCII
    letter, a digit or one of [_.-~:/%#?=@[]!$&'()*+,;]. *)
Theorem shorten_then_location :
  forall (payload : ShortenRequest.t) (w : World) (resp : ShortenResponse.t),
    fst (get_db (create_short_url payload) w) = Return resp ->
    forall (calls : list Call) (request : Request.t),
    exists r,
      fst (get_db (redirect_short_code (ShortenResponse.short_code resp)
                                       request)
                  (serve_all calls (serve (Shorten payload) w)))
      = Return r
      /\ RedirectResponse.status_code r = 302
      /\ RedirectResponse.url r = ShortenRequest.original_url payload
      /\ location_header r
         = quote (ShortenRequest.original_url payload) REDIRECT_SAFE
      /\ (location_header r = ShortenRequest.original_url payload
          <-> Forall (fun c => location_safe c = true)
                     (list_ascii_of_string
                        (ShortenRequest.original_url payload))).
Proof.
  intros payload w resp Hresp calls request.
  destruct (shorten_then_resolve payload w resp Hresp calls request)
    as [_ Hr].
  eexists. split; [exact Hr|].
  unfold location_header, location_safe. cbn [RedirectResponse.url
                                               RedirectResponse.status_code].
  repeat split; try apply quote_unchanged_iff.
Qed.

Lemma shorten_then_location_witness :
  fst (get_db (create_short_url sample_payload) sample_world)
  = Return (ShortenResponse.mk "0123456" "https://example.com/a")
  /\ exists r,
      fst (get_db (redirect_short_code "0123456" sample_request)
                  (serve_all [Resolve "0123456" bare_request; Stats "0123456"]
                             (serve (Shorten sample_payload) sample_world)))
      = Return r
      /\ RedirectResponse.status_code r = 302
      /\ RedirectResponse.url r = "https://example.com/a"
      /\ location_header r = "https://example.com/a".
Proof.
  split; [reflexivity|].
  destruct (shorten_then_location
              sample_payload sample_world
              (ShortenResponse.mk "0123456" "https://example.com/a")
              eq_refl
              [Resolve "0123456" bare_request; Stats "0123456"]
              sample_request)
    as [r [Hr [Hstatus [Hurl [_ Hiff]]]]].
  exists r. split; [exact Hr|]. split; [exact Hstatus|].
  split; [exact Hurl|].
  apply (proj2 Hiff). apply all_location_safe. reflexivity.
Defined.

(** ** Reads of one code *)

Lemma reported_clicks_found (code : string) (w : World) (m : UrlMapping.t) :
  first_by_short_code code (store w) = Some m ->
  reported_clicks code w = Some (count_clicks (UrlMapping.id m) (store w)).
Proof.
  intros H. unfold reported_clicks. rewrite get_db_fst.
  now rewrite (get_stats_found _ (fresh_session w) m H).
Qed.

Lemma observed_url_read (code : string) (c : Call) (w : World)
      (m : UrlMapping.t) :
  first_by_short_code code (store w) = Some m ->
  reads code c ->
  observed_url c w = Some (UrlMapping.original_url m).
Proof.
  intros H Hc. destruct c as [p | code' request | code']; cbn [reads] in Hc.
  - destruct Hc.
  - subst code'. cbn [observed_url]. rewrite get_db_fst.
    now rewrite (redirect_found _ _ (fresh_session w) m eq_refl H).
  - subst code'. cbn [observed_url]. rewrite get_db_fst.
    now rewrite (get_stats_found _ (fresh_session w) m H).
Qed.

Lemma resolve_adds_one (code : string) (request : Request.t) (w : World)
      (m : UrlMapping.t) :
  first_by_short_code code (store w) = Some m ->
  count_clicks (UrlMapping.id m) (store (serve (Resolve code request) w))
  = count_clicks (UrlMapping.id m) (store w) + 1.
Proof.
  intros H. rewrite (serve_resolve_store _ _ _ _ H), count_clicks_snoc.
  cbn [new_click Click.url_id]. now rewrite Z.eqb_refl, count_clicks_store.
Qed.

Lemma reads_run (code : string) (m : UrlMapping.t) (calls : list Call) :
  forall w,
    first_by_short_code code (store w) = Some m ->
    Forall (reads code) calls ->
    Forall (fun o => o = Some (UrlMapping.original_url m))
           (observations calls w)
    /\ first_by_short_code code (store (serve_all calls w)) = Some m
    /\ count_clicks (UrlMapping.id m) (store (serve_all calls w))
       = count_clicks (UrlMapping.id m) (store w) + Z.of_nat (resolves calls).
Proof.
  induction calls as [|c calls IH]; intros w Hfirst Hreads.
  - cbn. repeat split; [constructor | exact Hfirst | lia].
  - inversion Hreads as [|c' cs' Hc Hrest]; subst.
    assert (Hnext : first_by_short_code code (store (serve c w)) = Some m)
      by exact (transactions_keep_first _ _ _ _ (serve_transactions c w) Hfirst).
    destruct (IH (serve c w) Hnext Hrest) as [Hobs [Hf Hcount]].
    change (serve_all (c :: calls) w) with (serve_all calls (serve c w)).
    cbn [observations]. repeat split.
    + constructor; [exact (observed_url_read _ _ _ _ Hfirst Hc) | exact Hobs].
    + exact Hf.
    + rewrite Hcount.
      destruct c as [p | code' request | code']; cbn [reads] in Hc.
      * destruct Hc.
      * subst code'. rewrite (resolve_adds_one _ _ _ _ Hfirst).
        unfold resolves. cbn [filter List.length]. lia.
      * rewrite serve_stats_store. unfold resolves. cbn [filter]. lia.
Qed.

(** C8. Let [code] be issued, with row [m]. Whatever redirects through
    [code] and looks at its statistics are served, in whatever order, each
    of them reports [m]'s [original_url]; [total_clicks] as [get_stats]
    reports it afterwards is what it reported before plus the number of
    redirects served, so each redirect adds exactly 1. *)
Theorem reads_are_stable :
  forall (code : string) (w : World) (m : UrlMapping.t) (calls : list Call),
    first_by_short_code code (store w) = Some m ->
    Forall (reads code) calls ->
    Forall (fun o => o = Some (UrlMapping.original_url m))
           (observations calls w)
    /\ (exists before,
           reported_clicks code w = Some before
           /\ reported_clicks code (serve_all calls w)
              = Some (before + Z.of_nat (resolves calls))
           /\ forall request,
               reported_clicks code
                               (serve (Resolve code request)
                                      (serve_all calls w))
               = Some (before + Z.of_nat (resolves calls) + 1)).
Proof.
  intros code w m calls Hfirst Hreads.
  destruct (reads_run code m calls w Hfirst Hreads) as [Hobs [Hf Hcount]].
  split; [exact Hobs|].
  exists (count_clicks (UrlMapping.id m) (store w)).
  split; [exact (reported_clicks_found _ _ _ Hfirst)|].
  split.
  - rewrite (reported_clicks_found _ _ _ Hf). now rewrite Hcount.
  - intros request.
    assert (Hnext : first_by_short_code
                      code
                      (store (serve (Resolve code request) (serve_all calls w)))
                    = Some m)
      by exact (transactions_keep_first
                  _ _ _ _ (serve_transactions _ _) Hf).
    rewrite (reported_clicks_found _ _ _ Hnext).
    now rewrite (resolve_adds_one _ _ _ _ Hf), Hcount.
Qed.

Lemma reads_are_stable_witness :
  first_by_short_code "aaaaaaa" (store (stuck_world issued_store))
  = Some (UrlMapping.mk 1 "https://example.com/a" "aaaaaaa" 100)
  /\ Forall (reads "aaaaaaa")
            [Resolve "aaaaaaa" sample_request; Stats "aaaaaaa";
             Resolve "aaaaaaa" bare_request]
  /\ Forall (fun o => o = Some "https://example.com/a")
            (observations
               [Resolve "aaaaaaa" sample_request; Stats "aaaaaaa";
                Resolve "aaaaaaa" bare_request]
               (stuck_world issued_store)).
Proof.
  assert (Hreads : Forall (reads "aaaaaaa")
                          [Resolve "aaaaaaa" sample_request; Stats "aaaaaaa";
                           Resolve "aaaaaaa" bare_request])
    by (repeat constructor).
  split; [reflexivity|]. split; [exact Hreads|].
  exact (proj1 (reads_are_stable
                  "aaaaaaa" (stuck_world issued_store)
                  (UrlMapping.mk 1 "https://example.com/a" "aaaaaaa" 100)
                  _ eq_refl Hreads)).
Defined.

(** The scenario of the specification: two redirects and the count is 2. *)
Example reported_clicks_after_two_redirects :
  reported_clicks "aaaaaaa"
                  (serve_all [Resolve "aaaaaaa" sample_request; Stats "aaaaaaa";
                              Resolve "aaaaaaa" bare_request]
                             (stuck_world issued_store))
  = Some 2.
Proof. reflexivity. Qed.

(** C10. A successful redirect through [code], whose row is [m], in a
    reachable store: [url_mappings] is left exactly as it was; the one new
    click carries [m]'s id; the click count of every other row is unchanged
    and [m]'s grows by 1; and [get_stats] on any other code answers exactly
    as before. *)
Theorem redirect_frame :
  forall (code : string) (request : Request.t) (w : World) (m : UrlMapping.t),
    reachable (store w) ->
    first_by_short_code code (store w) = Some m ->
    let w' := serve (Resolve code request) w in
    url_mappings (store w') = url_mappings (store w)
    /\ (exists click,
           clicks (store w') = (clicks (store w) ++ [click])%list
           /\ Click.url_id click = UrlMapping.id m)
    /\ (forall m',
           In m' (url_mappings (store w)) -> m' <> m ->
           count_clicks (UrlMapping.id m') (store w')
           = count_clicks (UrlMapping.id m') (store w))
    /\ count_clicks (UrlMapping.id m) (store w')
       = count_clicks (UrlMapping.id m) (store w) + 1
    /\ (forall code',
           code' <> code ->
           fst (get_db (get_stats code') w') = fst (get_db (get_stats code') w)).
Proof.
  intros code request w m Hreach Hfirst w'.
  pose proof (serve_resolve_store code request w m Hfirst) as Hst.
  fold w' in Hst.
  destruct (first_in _ _ _ Hfirst) as [Hin Hcode].
  assert (Hother : forall m',
             In m' (url_mappings (store w)) -> m' <> m ->
             count_clicks (UrlMapping.id m') (store w')
             = count_clicks (UrlMapping.id m') (store w)).
  { intros m' Hin' Hneq. rewrite Hst, count_clicks_snoc.
    cbn [new_click Click.url_id]. rewrite count_clicks_store.
    destruct (Z.eqb_spec (UrlMapping.id m) (UrlMapping.id m')) as [E|E];
      [|lia].
    exfalso. apply Hneq. symmetry.
    exact (NoDup_map_injective _ _ _ _ (reachable_unique_ids _ Hreach)
                               Hin Hin' E). }
  repeat split.
  - now rewrite Hst.
  - rewrite Hst. cbn [clicks]. eexists. split; reflexivity.
  - exact Hother.
  - exact (resolve_adds_one _ _ _ _ Hfirst).
  - intros code' Hneq. rewrite !get_db_fst.
    assert (Hsame : first_by_short_code code' (store w')
                    = first_by_short_code code' (store w))
      by now rewrite Hst.
    destruct (first_by_short_code code' (store w)) as [m'|] eqn:E.
    + rewrite (get_stats_found _ (fresh_session w') m' Hsame).
      rewrite (get_stats_found _ (fresh_session w) m' E).
      destruct (first_in _ _ _ E) as [Hin' Hcode'].
      cbn [fst fresh_session store]. rewrite Hother; [reflexivity | exact Hin' |].
      intros ->. congruence.
    + rewrite (get_stats_not_found _ (fresh_session w') Hsame).
      now rewrite (get_stats_not_found _ (fresh_session w) E).
Qed.

Lemma redirect_frame_witness :
  reachable (store two_codes_world)
  /\ first_by_short_code "0123456" (store two_codes_world)
     = Some (UrlMapping.mk 1 "https://example.com/a" "0123456" 100)
  /\ count_clicks 2 (store (serve (Resolve "0123456" sample_request)
                                  two_codes_world))
     = count_clicks 2 (store two_codes_world).
Proof.
  split; [exact two_codes_store_reachable|]. split; [reflexivity|].
  destruct (redirect_frame
              "0123456" sample_request two_codes_world
              (UrlMapping.mk 1 "https://example.com/a" "0123456" 100)
              two_codes_store_reachable eq_refl) as [_ [_ [Hother _]]].
  apply (Hother (UrlMapping.mk 2 "https://example.com/b" "789abcd" 101)).
  - cbn [two_codes_world store two_codes_store url_mappings].
    right. left. reflexivity.
  - discriminate.
Defined.

(** C9 as stated fails: a redirect requested with a 300-character
    [User-Agent] stores a click whose [user_agent] is longer than 255
    characters. *)
Lemma user_agent_longer_than_column :
  ~ Forall (fun c => (String.length (Click.user_agent c) <= 255)%nat)
           (clicks (store (serve (Resolve "aaaaaaa" long_request)
                                 (stuck_world issued_store)))).
Proof.
  assert (E : clicks (store (serve (Resolve "aaaaaaa" long_request)
                                   (stuck_world issued_store)))
              = [Click.mk 1 1 100 "unknown" long_user_agent])
    by (vm_compute; reflexivity).
  assert (L : String.length long_user_agent = 300%nat)
    by (vm_compute; reflexivity).
  rewrite E. intros H. apply Forall_inv in H.
  cbn [Click.user_agent] in H. rewrite L in H. lia.
Qed.

(** C9, amended. The click a successful redirect stores carries as
    [user_agent] the [User-Agent] header's value exactly as supplied,
    whatever its length (["unknown"] when there is no such header): the
    handler cuts nothing and the store keeps what it is given. *)
Theorem user_agent_stored_as_supplied :
  forall (code : string) (request : Request.t) (w : World) (m : UrlMapping.t),
    first_by_short_code code (store w) = Some m ->
    exists click,
      clicks (store (serve (Resolve code request) w))
      = (clicks (store w) ++ [click])%list
      /\ Click.user_agent click
         = Request.headers_get (Request.headers request) "user-agent" "unknown"
      /\ (forall v rest,
             Request.headers request = ("user-agent", v) :: rest ->
             Click.user_agent click = v
             /\ String.length (Click.user_agent click) = String.length v).
Proof.
  intros code request w m Hfirst.
  rewrite (serve_resolve_store _ _ _ _ Hfirst). cbn [clicks].
  eexists. split; [reflexivity|].
  cbn [new_click Click.user_agent]. split; [reflexivity|].
  intros v rest Hhs. unfold user_agent_of. rewrite Hhs.
  cbn [Request.headers_get]. rewrite String.eqb_refl. now split.
Qed.

Lemma user_agent_stored_as_supplied_witness :
  first_by_short_code "aaaaaaa" (store (stuck_world issued_store))
  = Some (UrlMapping.mk 1 "https://example.com/a" "aaaaaaa" 100)
  /\ exists click,
      clicks (store (serve (Resolve "aaaaaaa" long_request)
                           (stuck_world issued_store)))
      = (clicks (store (stuck_world issued_store)) ++ [click])%list
      /\ Click.user_agent click = long_user_agent.
Proof.
  split; [reflexivity|].
  destruct (user_agent_stored_as_supplied
              "aaaaaaa" long_request (stuck_world issued_store)
              (UrlMapping.mk 1 "https://example.com/a" "aaaaaaa" 100)
              eq_refl) as [click [Hclicks [Hua _]]].
  exists click. split; [exact Hclicks | exact Hua].
Defined.

(** * Further properties of the handlers *)

(** ** What one call does to the store *)

Lemma serve_shorten_cases (payload : ShortenRequest.t) (w : World) :
  let U := ShortenRequest.original_url payload in
  (exists k,
      (k < 5)%nat
      /\ code_taken (candidate w k) (store w) = false
      /\ fst (get_db (create_short_url payload) w)
         = Return (ShortenResponse.mk (candidate w k) U)
      /\ store (serve (Shorten payload) w)
         = mkStore
             (url_mappings (store w)
              ++ [new_mapping (store w) U (candidate w k)
                    (clock_tape (clock w) (clock_pos (clock w) + k))])
             (clicks (store w)))
  \/ (fst (get_db (create_short_url payload) w)
      = Raise (HTTPException 500 "Failed to generate unique short code")
      /\ store (serve (Shorten payload) w) = store w).
Proof.
  intros U. cbn [serve]. rewrite get_db_fst, get_db_store.
  unfold create_short_url, range. fold U.
  destruct (loop_spec 5 0 U (fresh_session w) eq_refl)
    as [[k [Hk [_ [Hfree [Hr [Hst _]]]]]] | [_ [Hr [Hst _]]]].
  - left. exists k. repeat split; assumption.
  - right. split; assumption.
Qed.

Lemma serve_resolve_cases (code : string) (request : Request.t) (w : World) :
  (first_by_short_code code (store w) = None
   /\ store (serve (Resolve code request) w) = store w)
  \/ (exists m,
         first_by_short_code code (store w) = Some m
         /\ store (serve (Resolve code request) w)
            = mkStore (url_mappings (store w))
                      (clicks (store w)
                       ++ [new_click (store w) (UrlMapping.id m)
                                     (client_host_of request)
                                     (user_agent_of request)
                                     (now_of (clock w))])).
Proof.
  destruct (first_by_short_code code (store w)) as [m|] eqn:E.
  - right. exists m. split; [reflexivity|]. now apply serve_resolve_store.
  - left. split; [reflexivity|]. cbn [serve]. rewrite get_db_store.
    now rewrite (redirect_not_found _ _ (fresh_session w) E).
Qed.

Lemma count_clicks_same_clicks (uid : Z) (st st' : Store) :
  clicks st' = clicks st -> count_clicks uid st' = count_clicks uid st.
Proof. unfold count_clicks. now intros ->. Qed.

(** ** Invariants of the worlds the service gets into *)

Lemma served_reachable (w : World) : served w -> reachable (store w).
Proof.
  induction 1 as [g ck | c w _ IH].
  - exact reachable_empty.
  - exact (transactions_reachable _ _ (serve_transactions c w) IH).
Qed.

Lemma serve_keeps_references (c : Call) (w : World) :
  clicks_reference_mappings (store w) ->
  clicks_reference_mappings (store (serve c w)).
Proof.
  intros Href. destruct c as [payload | code request | code].
  - destruct (serve_shorten_cases payload w)
      as [[k [_ [_ [_ Hst]]]] | [_ Hst]]; rewrite Hst; [|exact Href].
    intros c Hc. cbn [clicks] in Hc. destruct (Href c Hc) as [m [Hin Hid]].
    exists m. cbn [url_mappings]. split; [|exact Hid].
    apply in_or_app. now left.
  - destruct (serve_resolve_cases code request w)
      as [[_ Hst] | [m [Hfirst Hst]]]; rewrite Hst; [exact Href|].
    intros c Hc. cbn [clicks url_mappings] in *.
    apply in_app_or in Hc. destruct Hc as [Hc | [<- | []]].
    + exact (Href c Hc).
    + exists m. split; [exact (proj1 (first_in _ _ _ Hfirst)) | reflexivity].
  - now rewrite serve_stats_store.
Qed.

Lemma served_references (w : World) :
  served w -> clicks_reference_mappings (store w).
Proof.
  induction 1 as [g ck | c w _ IH].
  - intros c [].
  - now apply serve_keeps_references.
Qed.

Lemma two_codes_world_is_served : served two_codes_world.
Proof.
  rewrite <- two_codes_world_served. do 2 apply served_call.
  apply served_start.
Qed.

(** ** The code generator at its edges *)

Lemma code_at_app (tape : nat -> nat) (n m : nat) :
  forall pos,
    code_at tape pos (n + m)
    = code_at tape pos n ++ code_at tape (pos + n) m.
Proof.
  induction n as [|n IH]; intros pos.
  - cbn. now rewrite Nat.add_0_r.
  - cbn [Nat.add code_at String.append]. rewrite IH.
    now rewrite Nat.add_succ_r.
Qed.

(** X1. A length of 0 or below yields the empty string and draws nothing:
    the world is left exactly as it was. *)
Theorem generate_short_code_nonpositive :
  forall (n : Z) (w : World),
    n <= 0 -> generate_short_code n w = (Return "", w).
Proof.
  intros n w Hn. unfold generate_short_code.
  destruct n as [|p|p]; [reflexivity | lia | reflexivity].
Qed.

Lemma generate_short_code_nonpositive_witness :
  -3 <= 0 /\ generate_short_code (-3) sample_world = (Return "", sample_world).
Proof.
  split; [lia|].
  exact (generate_short_code_nonpositive (-3) sample_world ltac:(lia)).
Defined.

(** X2. Generating [a + b] characters is generating [a] and then [b] and
    joining them: same string, same draws consumed. *)
Theorem generate_short_code_concat :
  forall (a b : Z) (w : World),
    0 <= a -> 0 <= b ->
    generate_short_code (a + b) w
    = (x <- generate_short_code a ;;
       y <- generate_short_code b ;;
       ret (x ++ y)) w.
Proof.
  intros a b w Ha Hb. unfold generate_short_code.
  rewrite Z2Nat.inj_add by assumption.
  unfold bind. rewrite !join_choices_run. unfold ret.
  cbn [drawn rng rand_tape rand_pos store session_new clock].
  rewrite code_at_app. unfold drawn. now rewrite Nat.add_assoc.
Qed.

Lemma generate_short_code_concat_witness :
  0 <= 3 /\ 0 <= 4
  /\ generate_short_code (3 + 4) sample_world
     = (x <- generate_short_code 3 ;;
        y <- generate_short_code 4 ;;
        ret (x ++ y)) sample_world.
Proof.
  split; [lia|]. split; [lia|].
  exact (generate_short_code_concat 3 4 sample_world ltac:(lia) ltac:(lia)).
Defined.

(** ** Rows are never changed or removed *)

Lemma transaction_appends (st st' : Store) :
  transaction st st' ->
  exists ms cs,
    url_mappings st' = (url_mappings st ++ ms)%list
    /\ clicks st' = (clicks st ++ cs)%list.
Proof.
  intros [st0 st1 u c now pk H | st0 st1 uid ip ua now pk H].
  - apply insert_mapping_inv in H. destruct H as [_ ->].
    eexists. exists []. cbn [url_mappings clicks].
    split; [reflexivity | now rewrite app_nil_r].
  - apply insert_click_inv in H. subst st1.
    exists []. eexists. cbn [url_mappings clicks].
    split; [now rewrite app_nil_r | reflexivity].
Qed.

Lemma transactions_append (st st' : Store) :
  transactions st st' ->
  exists ms cs,
    url_mappings st' = (url_mappings st ++ ms)%list
    /\ clicks st' = (clicks st ++ cs)%list.
Proof.
  induction 1 as [st | st st' st'' Htx _ IH].
  - exists [], []. now rewrite !app_nil_r.
  - destruct (transaction_appends _ _ Htx) as [ms [cs [Hm Hc]]].
    destruct IH as [ms' [cs' [Hm' Hc']]].
    exists (ms ++ ms')%list, (cs ++ cs')%list.
    rewrite Hm', Hc', Hm, Hc. now rewrite !app_assoc.
Qed.

(** X3. Whatever requests are served, both tables only grow at the end:
    the rows stored before are all still there, unchanged and in the same
    places. *)
Theorem rows_are_only_appended :
  forall (calls : list Call) (w : World),
    exists ms cs,
      url_mappings (store (serve_all calls w))
      = (url_mappings (store w) ++ ms)%list
      /\ clicks (store (serve_all calls w)) = (clicks (store w) ++ cs)%list.
Proof.
  intros calls w. apply transactions_append. apply serve_all_transactions.
Qed.

(** X8. On an empty [url_mappings] the first attempt of [create_short_url]
    succeeds: it answers with the first candidate after 7 draws, and the
    table holds that one row, with id 1 and the first clock reading. *)
Theorem first_code_on_empty_table :
  forall (payload : ShortenRequest.t) (w : World),
    url_mappings (store w) = [] ->
    let out := get_db (create_short_url payload) w in
    let U := ShortenRequest.original_url payload in
    fst out = Return (ShortenResponse.mk (candidate w 0) U)
    /\ url_mappings (store (snd out))
       = [UrlMapping.mk 1 U (candidate w 0) (now_of (clock w))]
    /\ rand_pos (rng (snd out)) = (rand_pos (rng w) + 7)%nat.
Proof.
  intros payload w Hempty out U. subst out.
  assert (Hfree : code_taken (candidate (fresh_session w) 0)
                             (store (fresh_session w)) = false).
  { unfold code_taken. cbn [fresh_session store]. now rewrite Hempty. }
  rewrite get_db_fst, get_db_store, get_db_rng.
  unfold create_short_url, range. fold U. cbn [seq].
  rewrite (attempt_success _ _ _ (fresh_session w) eq_refl Hfree).
  cbn [fst snd store url_mappings fresh_session rng after_attempt rand_pos].
  unfold new_mapping. cbn [fresh_session store clock]. rewrite Hempty.
  repeat split.
Qed.

Lemma first_code_on_empty_table_witness :
  url_mappings (store sample_world) = []
  /\ fst (get_db (create_short_url sample_payload) sample_world)
     = Return (ShortenResponse.mk (candidate sample_world 0)
                                  "https://example.com/a").
Proof.
  split; [reflexivity|].
  exact (proj1 (first_code_on_empty_table sample_payload sample_world
                                          eq_refl)).
Defined.

(** ** The [User-Agent] default *)

(** X9. When the request carries a [User-Agent] header, the click stores
    the value of the first one, even an empty one: ["unknown"] stands in
    only for a header that is absent, and later headers of that name are
    not looked at. *)
Theorem first_user_agent_header_is_stored :
  forall (code : string) (request : Request.t) (w : World) (m : UrlMapping.t)
         (pre post : list (string * string)) (v : string),
    first_by_short_code code (store w) = Some m ->
    Request.headers request = (pre ++ ("user-agent", v) :: post)%list ->
    (forall k v', In (k, v') pre -> k <> "user-agent") ->
    exists click,
      clicks (store (serve (Resolve code request) w))
      = (clicks (store w) ++ [click])%list
      /\ Click.user_agent click = v.
Proof.
  intros code request w m pre post v Hfirst Hhs Hpre.
  rewrite (serve_resolve_store _ _ _ _ Hfirst). cbn [clicks].
  eexists. split; [reflexivity|].
  cbn [new_click Click.user_agent]. unfold user_agent_of. rewrite Hhs.
  now apply headers_get_first.
Qed.

Lemma first_user_agent_header_is_stored_witness :
  first_by_short_code "aaaaaaa" (store (stuck_world issued_store))
  = Some (UrlMapping.mk 1 "https://example.com/a" "aaaaaaa" 100)
  /\ Request.headers twice_agent_request
     = ([("host", "sho.rt")]
        ++ ("user-agent", "") :: [("user-agent", "curl/8")])%list
  /\ exists click,
      clicks (store (serve (Resolve "aaaaaaa" twice_agent_request)
                           (stuck_world issued_store)))
      = (clicks (store (stuck_world issued_store)) ++ [click])%list
      /\ Click.user_agent click = "".
Proof.
  split; [reflexivity|]. split; [reflexivity|].
  apply (first_user_agent_header_is_stored
           "aaaaaaa" twice_agent_request (stuck_world issued_store)
           (UrlMapping.mk 1 "https://example.com/a" "aaaaaaa" 100)
           [("host", "sho.rt")] [("user-agent", "curl/8")] ""
           eq_refl eq_refl).
  intros k v' [H | []]. inversion H. discriminate.
Defined.

(** ** Statuses *)

(** X11. The only statuses the handlers ever answer with are 200 or 500
    for [create_short_url], 302 or 404 for [redirect_short_code] and 200 or
    404 for [get_stats]; and a call answered with 404 or 500 leaves both
    tables exactly as they were. *)
Theorem errors_leave_no_trace :
  forall (c : Call) (w : World),
    match c with
    | Shorten _ => status_of_call c w = 200 \/ status_of_call c w = 500
    | Resolve _ _ => status_of_call c w = 302 \/ status_of_call c w = 404
    | Stats _ => status_of_call c w = 200 \/ status_of_call c w = 404
    end
    /\ (status_of_call c w = 404 \/ status_of_call c w = 500 ->
        store (serve c w) = store w).
Proof.
  intros c w. destruct c as [payload | code request | code];
    cbn [status_of_call].
  - destruct (serve_shorten_cases payload w)
      as [[k [_ [_ [Hr Hst]]]] | [Hr Hst]]; rewrite Hr; cbn [http_status].
    + split; [now left|]. intros [H | H]; discriminate H.
    + split; [now right|]. intros _. exact Hst.
  - destruct (serve_resolve_cases code request w)
      as [[Hnone Hst] | [m [Hfirst Hst]]]; rewrite get_db_fst.
    + rewrite (redirect_not_found _ _ (fresh_session w) Hnone).
      cbn [fst http_status]. split; [now right|]. intros _. exact Hst.
    + rewrite (redirect_found _ _ (fresh_session w) m eq_refl Hfirst).
      cbn [fst http_status RedirectResponse.status_code].
      split; [now left|]. intros [H | H]; discriminate H.
  - split; [|intros _; apply serve_stats_store].
    rewrite get_db_fst.
    destruct (first_by_short_code code (store w)) as [m|] eqn:E.
    + rewrite (get_stats_found _ (fresh_session w) m E). now left.
    + rewrite (get_stats_not_found _ (fresh_session w) E). now right.
Qed.

Lemma errors_leave_no_trace_witness :
  (status_of_call (Shorten sample_payload) (stuck_world issued_store) = 404
   \/ status_of_call (Shorten sample_payload) (stuck_world issued_store) = 500)
  /\ store (serve (Shorten sample_payload) (stuck_world issued_store))
     = store (stuck_world issued_store).
Proof.
  assert (H : status_of_call (Shorten sample_payload)
                             (stuck_world issued_store) = 404
              \/ status_of_call (Shorten sample_payload)
                                (stuck_world issued_store) = 500)
    by (right; vm_compute; reflexivity).
  split; [exact H|].
  exact (proj2 (errors_leave_no_trace (Shorten sample_payload)
                                      (stuck_world issued_store)) H).
Defined.

(** X12. [redirect_short_code] and [get_stats] agree on every code in
    every world: either both answer 404, or the redirect's target is the
    [original_url] that the statistics show. *)
Theorem redirect_and_stats_agree :
  forall (code : string) (request : Request.t) (w : World),
    (fst (get_db (redirect_short_code code request) w)
     = Raise (HTTPException 404 "Short code not found")
     /\ fst (get_db (get_stats code) w)
        = Raise (HTTPException 404 "Short code not found"))
    \/ (exists r s,
           fst (get_db (redirect_short_code code request) w) = Return r
           /\ fst (get_db (get_stats code) w) = Return s
           /\ RedirectResponse.url r = StatsResponse.original_url s
           /\ StatsResponse.short_code s = code).
Proof.
  intros code request w. rewrite !get_db_fst.
  destruct (first_by_short_code code (store w)) as [m|] eqn:E.
  - right.
    rewrite (redirect_found _ _ (fresh_session w) m eq_refl E).
    rewrite (get_stats_found _ (fresh_session w) m E).
    eexists. eexists. cbn [fst]. repeat split.
    exact (proj2 (first_in _ _ _ E)).
  - left.
    rewrite (redirect_not_found _ _ (fresh_session w) E).
    rewrite (get_stats_not_found _ (fresh_session w) E). now split.
Qed.

(** ** Clicks and the rows they belong to *)

(** X4. In every world the service gets into, each stored click belongs to
    exactly one row of [url_mappings]: some row has the click's [url_id] as
    its id, and no other row has. *)
Theorem every_click_has_its_mapping :
  forall (w : World),
    served w ->
    forall c, In c (clicks (store w)) ->
              exists m,
                In m (url_mappings (store w))
                /\ UrlMapping.id m = Click.url_id c
                /\ forall m', In m' (url_mappings (store w)) ->
                              UrlMapping.id m' = Click.url_id c -> m' = m.
Proof.
  intros w Hs c Hc.
  destruct (served_references w Hs c Hc) as [m [Hin Hid]].
  exists m. repeat split; trivial.
  intros m' Hin' Hid'.
  apply (NoDup_map_injective
           UrlMapping.id _ _ _
           (reachable_unique_ids _ (served_reachable w Hs)) Hin' Hin).
  congruence.
Qed.

Lemma count_clicks_none (uid : Z) (st : Store) :
  (forall c, In c (clicks st) -> Click.url_id c <> uid) ->
  count_clicks uid st = 0.
Proof.
  unfold count_clicks. induction (clicks st) as [|c cs IH]; intros H.
  - reflexivity.
  - cbn [filter].
    destruct (Z.eqb_spec (Click.url_id c) uid) as [E|E].
    + exfalso. apply (H c); [now left | exact E].
    + apply IH. intros c' Hc'. apply H. now right.
Qed.

(** X5. In a world the service has got into, a code just handed out by
    [create_short_url] has statistics right away: [get_stats] answers with
    that code, the URL given, no clicks, and as [created_at] the clock
    reading of the attempt that succeeded, which is the first attempt [k]
    whose candidate was free, the answered code being that candidate. *)
Theorem shorten_then_stats :
  forall (payload : ShortenRequest.t) (w : World) (resp : ShortenResponse.t),
    served w ->
    fst (get_db (create_short_url payload) w) = Return resp ->
    exists k,
      (k < 5)%nat
      /\ (forall j, (j < k)%nat ->
                    code_taken (candidate w j) (store w) = true)
      /\ code_taken (candidate w k) (store w) = false
      /\ ShortenResponse.short_code resp = candidate w k
      /\ fst (get_db (get_stats (ShortenResponse.short_code resp))
                     (serve (Shorten payload) w))
         = Return (StatsResponse.mk
                     (ShortenResponse.short_code resp)
                     (ShortenRequest.original_url payload)
                     0
                     (clock_tape (clock w) (clock_pos (clock w) + k))).
Proof.
  intros payload w resp Hs Hresp.
  set (U := ShortenRequest.original_url payload).
  assert (Hloop := loop_spec 5 0 U (fresh_session w) eq_refl).
  cbv zeta in Hloop. rewrite get_db_fst in Hresp.
  unfold create_short_url, range in Hresp. fold U in Hresp.
  destruct Hloop as [[k [Hk [Hbefore [Hfree [Hr [Hst _]]]]]] | [_ [Hr _]]];
    rewrite Hr in Hresp; inversion Hresp; subst resp.
  cbn [fresh_session store clock] in Hbefore, Hfree, Hst.
  change (candidate (fresh_session w) k) with (candidate w k) in *.
  exists k. split; [exact Hk|]. split; [exact Hbefore|].
  split; [exact Hfree|]. split; [reflexivity|].
  cbn [ShortenResponse.short_code]. rewrite get_db_fst.
  set (row := new_mapping (store w) U (candidate w k)
                          (clock_tape (clock w) (clock_pos (clock w) + k))).
  assert (Hstore : store (serve (Shorten payload) w)
                   = mkStore (url_mappings (store w) ++ [row])
                             (clicks (store w))).
  { cbn [serve]. rewrite get_db_store. unfold create_short_url, range.
    fold U. exact Hst. }
  assert (Hfirst : first_by_short_code
                     (candidate w k) (store (serve (Shorten payload) w))
                   = Some row).
  { rewrite Hstore. unfold first_by_short_code. cbn [url_mappings].
    apply find_app_fresh.
    - intros y Hy. apply String.eqb_neq.
      rewrite code_free_iff in Hfree. now apply Hfree.
    - apply String.eqb_refl. }
  rewrite (get_stats_found _ (fresh_session _) row Hfirst).
  cbn [fst fresh_session store]. rewrite Hstore.
  rewrite (count_clicks_none (UrlMapping.id row)); [reflexivity|].
  intros c Hc Heq. cbn [clicks] in Hc.
  destruct (served_references w Hs c Hc) as [m [Hin Hid]].
  assert (UrlMapping.id m < UrlMapping.id row).
  { unfold row, new_mapping. cbn [UrlMapping.id].
    apply next_rowid_above. now apply in_map. }
  lia.
Qed.

Lemma shorten_then_stats_witness :
  served two_codes_world
  /\ fst (get_db (create_short_url (ShortenRequest.mk "https://example.com/c"))
                 two_codes_world)
     = Return (ShortenResponse.mk "efghijk" "https://example.com/c")
  /\ exists k,
      (k < 5)%nat
      /\ (forall j, (j < k)%nat ->
                    code_taken (candidate two_codes_world j)
                               (store two_codes_world) = true)
      /\ code_taken (candidate two_codes_world k) (store two_codes_world)
         = false
      /\ "efghijk" = candidate two_codes_world k
      /\ fst (get_db (get_stats "efghijk")
                     (serve (Shorten (ShortenRequest.mk "https://example.com/c"))
                            two_codes_world))
         = Return (StatsResponse.mk
                     "efghijk" "https://example.com/c" 0
                     (clock_tape (clock two_codes_world)
                                 (clock_pos (clock two_codes_world) + k))).
Proof.
  split; [exact two_codes_world_is_served|]. split; [reflexivity|].
  exact (shorten_then_stats
           (ShortenRequest.mk "https://example.com/c") two_codes_world
           (ShortenResponse.mk "efghijk" "https://example.com/c")
           two_codes_world_is_served eq_refl).
Defined.

(** A retry in between: in the world with ["0123456"] issued the first
    candidate collides, the second attempt stores the row, and its
    [created_at] is the second clock reading from there. *)
Example shorten_then_stats_after_retry :
  fst (get_db (get_stats "789abcd")
              (serve (Shorten (ShortenRequest.mk "https://example.com/b"))
                     one_code_world))
  = Return (StatsResponse.mk "789abcd" "https://example.com/b" 0 102).
Proof. vm_compute. reflexivity. Qed.

Lemma clicked_world_is_served : served clicked_world.
Proof.
  assert (E : serve (Resolve "0123456" sample_request) two_codes_world
              = clicked_world) by reflexivity.
  rewrite <- E. apply served_call. exact two_codes_world_is_served.
Qed.

Lemma every_click_has_its_mapping_witness :
  served clicked_world
  /\ In (Click.mk 1 1 102 "203.0.113.7" "curl/8.5.0")
        (clicks (store clicked_world))
  /\ exists m,
      In m (url_mappings (store clicked_world))
      /\ UrlMapping.id m = 1.
Proof.
  assert (Hin : In (Click.mk 1 1 102 "203.0.113.7" "curl/8.5.0")
                   (clicks (store clicked_world)))
    by (left; reflexivity).
  split; [exact clicked_world_is_served|]. split; [exact Hin|].
  destruct (every_click_has_its_mapping
              clicked_world clicked_world_is_served _ Hin)
    as [m [Hm [Hid _]]].
  exists m. split; [exact Hm | exact Hid].
Defined.

(** ** Counting redirects among other requests *)

Lemma serve_count_step (code : string) (m : UrlMapping.t) (c : Call)
      (w : World) :
  reachable (store w) ->
  first_by_short_code code (store w) = Some m ->
  count_clicks (UrlMapping.id m) (store (serve c w))
  = count_clicks (UrlMapping.id m) (store w)
    + Z.of_nat (resolves_of code [c]).
Proof.
  intros Hreach Hfirst. destruct (first_in _ _ _ Hfirst) as [Hin Hcode].
  destruct c as [payload | sc request | sc]; unfold resolves_of;
    cbn [filter].
  - cbn [List.length Z.of_nat]. rewrite Z.add_0_r.
    apply count_clicks_same_clicks.
    destruct (serve_shorten_cases payload w)
      as [[k [_ [_ [_ Hst]]]] | [_ Hst]]; now rewrite Hst.
  - destruct (String.eqb_spec sc code) as [-> | Hneq].
    + cbn [List.length]. now rewrite (resolve_adds_one _ _ _ _ Hfirst).
    + cbn [List.length Z.of_nat]. rewrite Z.add_0_r.
      destruct (serve_resolve_cases sc request w)
        as [[_ Hst] | [m' [Hfirst' Hst]]]; rewrite Hst; [reflexivity|].
      rewrite count_clicks_snoc, count_clicks_store.
      cbn [new_click Click.url_id].
      destruct (Z.eqb_spec (UrlMapping.id m') (UrlMapping.id m)) as [E|E];
        [|lia].
      exfalso. apply Hneq.
      destruct (first_in _ _ _ Hfirst') as [Hin' Hcode'].
      rewrite <- Hcode', <- Hcode. f_equal.
      exact (NoDup_map_injective _ _ _ _ (reachable_unique_ids _ Hreach)
                                 Hin' Hin E).
  - cbn [List.length Z.of_nat]. rewrite Z.add_0_r.
    now rewrite serve_stats_store.
Qed.

Lemma resolves_of_cons (code : string) (c : Call) (calls : list Call) :
  resolves_of code (c :: calls)
  = (resolves_of code [c] + resolves_of code calls)%nat.
Proof.
  unfold resolves_of. cbn [filter].
  destruct c as [p | sc r | sc]; try reflexivity.
  destruct (String.eqb sc code); reflexivity.
Qed.

Lemma serve_all_count (code : string) (m : UrlMapping.t)
      (calls : list Call) :
  forall w,
    reachable (store w) ->
    first_by_short_code code (store w) = Some m ->
    first_by_short_code code (store (serve_all calls w)) = Some m
    /\ count_clicks (UrlMapping.id m) (store (serve_all calls w))
       = count_clicks (UrlMapping.id m) (store w)
         + Z.of_nat (resolves_of code calls).
Proof.
  induction calls as [|c calls IH]; intros w Hreach Hfirst.
  - cbn. split; [exact Hfirst | lia].
  - change (serve_all (c :: calls) w) with (serve_all calls (serve c w)).
    assert (Hreach' : reachable (store (serve c w)))
      by exact (transactions_reachable _ _ (serve_transactions c w) Hreach).
    assert (Hfirst' : first_by_short_code code (store (serve c w)) = Some m)
      by exact (transactions_keep_first _ _ _ _ (serve_transactions c w)
                                        Hfirst).
    destruct (IH (serve c w) Hreach' Hfirst') as [Hf Hcount].
    split; [exact Hf|].
    rewrite Hcount, (serve_count_step code m c w Hreach Hfirst).
    rewrite (resolves_of_cons code c calls). lia.
Qed.

(** X6. Let [code] be issued, with row [m], in a reachable store. After
    any requests whatever (new codes, redirects through this and other
    codes, statistics), [get_stats] on [code] answers with the same
    [original_url] and [created_at] as before and with [total_clicks]
    grown by exactly the number of redirects through [code] among them. *)
Theorem total_clicks_counts_redirects :
  forall (code : string) (w : World) (m : UrlMapping.t) (calls : list Call),
    reachable (store w) ->
    first_by_short_code code (store w) = Some m ->
    fst (get_db (get_stats code) (serve_all calls w))
    = Return (StatsResponse.mk
                code
                (UrlMapping.original_url m)
                (count_clicks (UrlMapping.id m) (store w)
                 + Z.of_nat (resolves_of code calls))
                (UrlMapping.created_at m)).
Proof.
  intros code w m calls Hreach Hfirst.
  destruct (serve_all_count code m calls w Hreach Hfirst) as [Hf Hcount].
  rewrite get_db_fst, (get_stats_found _ (fresh_session _) m Hf).
  cbn [fst fresh_session store]. rewrite Hcount.
  now rewrite (proj2 (first_in _ _ _ Hfirst)).
Qed.

Lemma total_clicks_counts_redirects_witness :
  reachable (store two_codes_world)
  /\ first_by_short_code "0123456" (store two_codes_world)
     = Some (UrlMapping.mk 1 "https://example.com/a" "0123456" 100)
  /\ fst (get_db (get_stats "0123456")
                 (serve_all [Resolve "789abcd" bare_request;
                             Resolve "0123456" sample_request;
                             Shorten (ShortenRequest.mk "https://example.com/c");
                             Resolve "0123456" bare_request;
                             Resolve "nowhere" bare_request]
                            two_codes_world))
     = Return (StatsResponse.mk "0123456" "https://example.com/a" 2 100).
Proof.
  split; [exact two_codes_store_reachable|]. split; [reflexivity|].
  exact (total_clicks_counts_redirects
           "0123456" two_codes_world
           (UrlMapping.mk 1 "https://example.com/a" "0123456" 100)
           [Resolve "789abcd" bare_request;
            Resolve "0123456" sample_request;
            Shorten (ShortenRequest.mk "https://example.com/c");
            Resolve "0123456" bare_request;
            Resolve "nowhere" bare_request]
           two_codes_store_reachable eq_refl).
Defined.

(** ** Codes handed out *)

Lemma issued_code_fresh (c : Call) (w : World) (code : string) :
  In code (issued_code c w) ->
  code_taken code (store w) = false
  /\ code_taken code (store (serve c w)) = true.
Proof.
  destruct c as [payload | sc request | sc]; cbn [issued_code];
    try (intros []).
  destruct (serve_shorten_cases payload w)
    as [[k [_ [Hfree [Hr Hst]]]] | [Hr _]]; rewrite Hr; [|intros []].
  cbn [ShortenResponse.short_code]. intros [<- | []].
  split; [exact Hfree|]. rewrite Hst. apply code_taken_iff.
  eexists. cbn [url_mappings]. split.
  - apply in_or_app. right. now left.
  - reflexivity.
Qed.

Lemma code_free_earlier (st st' : Store) (code : string) :
  transactions st st' ->
  code_taken code st' = false -> code_taken code st = false.
Proof.
  intros Htxs Hfree. destruct (code_taken code st) eqn:E; [|reflexivity].
  rewrite (transactions_keep_codes _ _ _ Htxs E) in Hfree. discriminate.
Qed.

Lemma issued_codes_fresh (calls : list Call) :
  forall (w : World) (code : string),
    In code (issued_codes calls w) ->
    code_taken code (store w) = false
    /\ code_taken code (store (serve_all calls w)) = true.
Proof.
  induction calls as [|c calls IH]; intros w code Hin; [destruct Hin|].
  cbn [issued_codes] in Hin.
  change (serve_all (c :: calls) w) with (serve_all calls (serve c w)).
  apply in_app_or in Hin. destruct Hin as [Hin | Hin].
  - destruct (issued_code_fresh c w code Hin) as [Hfree Htaken].
    split; [exact Hfree|].
    exact (transactions_keep_codes _ _ _ (serve_all_transactions calls _)
                                   Htaken).
  - destruct (IH (serve c w) code Hin) as [Hfree Htaken].
    split; [|exact Htaken].
    exact (code_free_earlier _ _ _ (serve_transactions c w) Hfree).
Qed.

Lemma issued_code_NoDup (c : Call) (w : World) : NoDup (issued_code c w).
Proof.
  destruct c as [payload | sc request | sc]; cbn [issued_code];
    try constructor.
  destruct (fst (get_db (create_short_url payload) w)).
  - constructor; [intros [] | constructor].
  - constructor.
Qed.

(** X7. Whatever requests are served, in whatever world, the codes
    [create_short_url] hands out along the way are pairwise different, none
    of them was in the table before, and all of them are in the table
    afterwards. *)
Theorem issued_codes_never_repeat :
  forall (calls : list Call) (w : World),
    NoDup (issued_codes calls w)
    /\ forall code,
        In code (issued_codes calls w) ->
        code_taken code (store w) = false
        /\ code_taken code (store (serve_all calls w)) = true.
Proof.
  intros calls w. split; [|apply issued_codes_fresh].
  revert w. induction calls as [|c calls IH]; intros w; cbn [issued_codes].
  - constructor.
  - apply NoDup_app; [apply issued_code_NoDup | apply IH |].
    intros code Hnow Hlater.
    destruct (issued_code_fresh c w code Hnow) as [_ Htaken].
    destruct (issued_codes_fresh calls (serve c w) code Hlater) as [Hfree _].
    congruence.
Qed.

(** Three calls with a generator stuck on one code: the code is handed out
    once, the two later calls are turned down. *)
Example issued_codes_stuck_generator :
  issued_codes [Shorten sample_payload; Shorten sample_payload;
                Shorten sample_payload]
               (stuck_world empty_store)
  = ["aaaaaaa"].
Proof. vm_compute. reflexivity. Qed.

(** ** The click counts add up *)

Lemma fold_add_snoc (l : list Z) (x : Z) :
  fold_right Z.add 0 (l ++ [x]) = fold_right Z.add 0 l + x.
Proof.
  induction l as [|y l IH]; cbn [app fold_right]; [lia | rewrite IH; lia].
Qed.

Lemma sum_counts_same_clicks (st st' : Store) (ms : list UrlMapping.t) :
  clicks st' = clicks st ->
  map (fun m => count_clicks (UrlMapping.id m) st') ms
  = map (fun m => count_clicks (UrlMapping.id m) st) ms.
Proof.
  intros H. apply map_ext. intros m. now apply count_clicks_same_clicks.
Qed.

Lemma sum_counts_new_click (ms0 ms : list UrlMapping.t) (cs : list Click.t)
      (c : Click.t) :
  fold_right Z.add 0
             (map (fun m => count_clicks (UrlMapping.id m)
                                         (mkStore ms0 (cs ++ [c])))
                  ms)
  = fold_right Z.add 0
               (map (fun m => count_clicks (UrlMapping.id m) (mkStore ms0 cs))
                    ms)
    + Z.of_nat
        (List.length
           (filter (fun m => Z.eqb (Click.url_id c) (UrlMapping.id m)) ms)).
Proof.
  induction ms as [|m ms IH]; cbn [map fold_right filter].
  - reflexivity.
  - rewrite IH, count_clicks_snoc.
    destruct (Z.eqb (Click.url_id c) (UrlMapping.id m));
      cbn [List.length]; lia.
Qed.

Lemma one_row_per_id (ms : list UrlMapping.t) (m : UrlMapping.t) :
  NoDup (map UrlMapping.id ms) -> In m ms ->
  List.length (filter (fun m' => Z.eqb (UrlMapping.id m) (UrlMapping.id m')) ms)
  = 1%nat.
Proof.
  induction ms as [|r ms IH]; intros Hn Hin; [destruct Hin|].
  cbn [map] in Hn. inversion Hn as [|x xs Hnotin Hn']; subst.
  cbn [filter]. destruct Hin as [-> | Hin].
  - rewrite Z.eqb_refl. cbn [List.length]. f_equal.
    apply length_zero_iff_nil.
    destruct (filter _ ms) as [|y ys] eqn:E; [reflexivity|].
    exfalso. apply Hnotin.
    assert (Hy : In y (filter (fun m' => Z.eqb (UrlMapping.id m)
                                               (UrlMapping.id m')) ms))
      by (rewrite E; now left).
    apply filter_In in Hy. destruct Hy as [Hy Heq].
    apply Z.eqb_eq in Heq. rewrite Heq. now apply in_map.
  - destruct (Z.eqb_spec (UrlMapping.id m) (UrlMapping.id r)) as [E|E].
    + exfalso. apply Hnotin. rewrite <- E. now apply in_map.
    + now apply IH.
Qed.

(** X10. In every world the service gets into, the [total_clicks] of all
    codes add up to the number of rows of [clicks]: every redirect is
    counted for exactly one code. *)
Theorem total_clicks_add_up :
  forall (w : World),
    served w ->
    sum_total_clicks (store w) = Z.of_nat (List.length (clicks (store w))).
Proof.
  induction 1 as [g ck | c w Hs IH]; [reflexivity|].
  pose proof (served_reachable w Hs) as Hreach.
  pose proof (served_references w Hs) as Href.
  unfold sum_total_clicks in *.
  destruct c as [payload | code request | code].
  - destruct (serve_shorten_cases payload w)
      as [[k [_ [_ [_ Hst]]]] | [_ Hst]]; rewrite Hst; [|exact IH].
    cbn [url_mappings clicks]. rewrite map_app. cbn [map].
    rewrite fold_add_snoc.
    rewrite (sum_counts_same_clicks (store w)) by reflexivity.
    rewrite IH.
    rewrite (count_clicks_none _ (mkStore _ (clicks (store w)))); [lia|].
    intros c Hc Heq. cbn [clicks] in Hc.
    destruct (Href c Hc) as [m [Hin Hid]].
    assert (UrlMapping.id m
            < next_rowid (map UrlMapping.id (url_mappings (store w))))
      by (apply next_rowid_above; now apply in_map).
    cbn [new_mapping UrlMapping.id] in Heq. lia.
  - destruct (serve_resolve_cases code request w)
      as [[_ Hst] | [m [Hfirst Hst]]]; rewrite Hst; [exact IH|].
    cbn [url_mappings clicks]. rewrite sum_counts_new_click.
    cbn [new_click Click.url_id].
    rewrite (one_row_per_id _ m (reachable_unique_ids _ Hreach)
                            (proj1 (first_in _ _ _ Hfirst))).
    rewrite length_app. cbn [List.length].
    rewrite (sum_counts_same_clicks (store w)) by reflexivity.
    rewrite IH. lia.
  - rewrite serve_stats_store. exact IH.
Qed.

Lemma total_clicks_add_up_witness :
  served clicked_world
  /\ sum_total_clicks (store clicked_world) = 1.
Proof.
  split; [exact clicked_world_is_served|].
  exact (total_clicks_add_up clicked_world clicked_world_is_served).
Defined.

(** ** The codes in the table *)

Lemma candidate_shape (w : World) (k : nat) :
  String.length (candidate w k) = 7%nat
  /\ Forall (fun c => alphanumeric c = true)
            (list_ascii_of_string (candidate w k)).
Proof.
  unfold candidate. split; [apply code_at_length|].
  eapply Forall_impl; [|apply code_at_in_alphabet].
  intros c Hc. now apply alphabet_is_alphanumeric.
Qed.

(** X13. In every world the service gets into, every [short_code] in
    [url_mappings] has exactly 7 characters, all of them digits or ASCII
    letters; so it fits the 10 characters the column is declared with. *)
Theorem stored_codes_are_well_formed :
  forall (w : World),
    served w ->
    Forall (fun m =>
              String.length (UrlMapping.short_code m) = 7%nat
              /\ (String.length (UrlMapping.short_code m) <= 10)%nat
              /\ Forall (fun c => alphanumeric c = true)
                        (list_ascii_of_string (UrlMapping.short_code m)))
           (url_mappings (store w)).
Proof.
  induction 1 as [g ck | c w Hs IH]; [constructor|].
  destruct c as [payload | code request | code].
  - destruct (serve_shorten_cases payload w)
      as [[k [_ [_ [_ Hst]]]] | [_ Hst]]; rewrite Hst; [|exact IH].
    cbn [url_mappings]. apply Forall_app. split; [exact IH|].
    constructor; [|constructor].
    cbn [new_mapping UrlMapping.short_code].
    destruct (candidate_shape w k) as [Hlen Hchars].
    split; [exact Hlen|]. split; [rewrite Hlen; lia | exact Hchars].
  - destruct (serve_resolve_cases code request w)
      as [[_ Hst] | [m [_ Hst]]]; rewrite Hst; exact IH.
  - rewrite serve_stats_store. exact IH.
Qed.

Lemma stored_codes_are_well_formed_witness :
  served two_codes_world
  /\ Forall (fun m =>
               String.length (UrlMapping.short_code m) = 7%nat
               /\ (String.length (UrlMapping.short_code m) <= 10)%nat
               /\ Forall (fun c => alphanumeric c = true)
                         (list_ascii_of_string (UrlMapping.short_code m)))
            (url_mappings (store two_codes_world)).
Proof.
  split; [exact two_codes_world_is_served|].
  exact (stored_codes_are_well_formed two_codes_world
                                      two_codes_world_is_served).
Defined.
